(** * universal_transcoder: decision table and ffmpeg command builder

    A shallow embedding of the pure core of [universal_transcoder.py]:
    [container_allows_codecs], [default_container_flags],
    [build_ffmpeg_cmd] and the per-file policy selection performed inside
    [main].  The ffprobe runs, directory walking and process execution are
    I/O and are not modelled; their results enter as plain arguments.

    Python values are modelled as follows.
    - [str] is [string], the text in UTF-8: an ASCII character is one
      element, and every operation of the source other than [lower] acts
      on ASCII characters only ([==], [in], [lstrip(".")], [replace] of a
      backslash or colon, concatenation).  [str.lower] is the parameter
      [lower] of the class [Lower].
    - [Optional[str]] is [option string]; the test [if x:] is [truthy],
      the expression [x or d] is [por x d].
    - [pathlib.Path] is a record of the two observations the code makes of
      a path: [str(p)] and [p.suffix].
    - an argument list is a [list string]. *)

From Stdlib Require Import ZArith String Ascii List Bool Lia.
From Stdlib Require Import Numbers.DecimalString.
Import ListNotations.

Open Scope string_scope.
Open Scope list_scope.

(** ** Python primitives used by the source *)

Module Py.

(** [if x:] on an [Optional[str]]: [None] and the empty string are false. *)
Definition truthy (o : option string) : bool :=
  match o with
  | Some s => negb (s =? "")
  | None => false
  end.

(** [x or d] where [x : Optional[str]] and [d] is a non-empty literal. *)
Definition por (o : option string) (d : string) : option string :=
  if truthy o then o else Some d.

(** [(x or "")] *)
Definition or_empty (o : option string) : string :=
  match o with
  | Some s => s
  | None => ""
  end.

(** [if n:] on an [Optional[int]]: [None] and [0] are false. *)
Definition truthy_int (o : option Z) : bool :=
  match o with
  | Some n => negb (n =? 0)%Z
  | None => false
  end.

(** [str(n)] on an [int]. *)
Definition str_int (n : Z) : string :=
  NilEmpty.string_of_int (Z.to_int n).

Definition lower_ascii (c : ascii) : ascii :=
  let n := nat_of_ascii c in
  if (65 <=? n)%nat && (n <=? 90)%nat then ascii_of_nat (n + 32) else c.

(** What [s.lower()] does to ASCII text: the letters A-Z are folded,
    every other character is kept. *)
Fixpoint fold_ascii (s : string) : string :=
  match s with
  | EmptyString => EmptyString
  | String c s' => String (lower_ascii c) (fold_ascii s')
  end.

(** The text has ASCII characters only. *)
Fixpoint is_ascii (s : string) : bool :=
  match s with
  | EmptyString => true
  | String c s' => (nat_of_ascii c <? 128)%nat && is_ascii s'
  end.

(** [s.lower()].  The built-in folds the whole of Unicode (the Kelvin sign
    U+212A becomes k), so it is not written out here: it is a parameter,
    and what is used of it are two facts that hold of the built-in on
    every string: on ASCII text it is [fold_ascii], and folding twice is
    folding once. *)
Class Lower : Type := {
  lower : string -> string;
  lower_ascii_text : forall s : string, is_ascii s = true -> lower s = fold_ascii s;
  lower_idem : forall s : string, lower (lower s) = lower s
}.

(** [s.lstrip(".")] *)
Fixpoint lstrip_dot (s : string) : string :=
  match s with
  | String "."%char s' => lstrip_dot s'
  | _ => s
  end.

(** [x in {...}] for a set literal of strings. *)
Definition in_set (x : string) (l : list string) : bool :=
  existsb (String.eqb x) l.

(** [s.replace(old, new)] for a pattern [old] of one character, the only
    form the source uses. *)
Fixpoint replace_char (old : ascii) (new : string) (s : string) : string :=
  match s with
  | EmptyString => EmptyString
  | String c s' =>
      ((if Ascii.eqb c old then new else String c EmptyString)
         ++ replace_char old new s')%string
  end.

(** [sep.join(l)] *)
Definition join (sep : string) (l : list string) : string :=
  String.concat sep l.

(** [d.get(k, default)] on a dict literal, kept as an association list. *)
Fixpoint dict_get (d : list (string * string)) (k : string) (default : string)
  : string :=
  match d with
  | [] => default
  | (k', v) :: d' => if k' =? k then v else dict_get d' k default
  end.

(** A [pathlib.Path] as the builder observes it. *)
Record Path : Type := mkPath {
  path_str : string;      (* str(p) *)
  path_suffix : string    (* p.suffix *)
}.

Definition backslash : ascii := ascii_of_nat 92.

End Py.

Import Py.

Section Model.

Context {L : Lower}.

(** ** Compatibility table (source lines 86-124) *)

Definition container_allows_codecs
  (container : string) (vcodec acodec : option string) : bool :=
  let container := lower container in
  let v := lower (or_empty vcodec) in
  let a := lower (or_empty acodec) in
  if in_set container ["mkv"] then
    true
  else if in_set container ["mp4"; "m4v"; "mov"] then
    let v_ok := in_set v ["h264"; "hevc"; "mpeg4"] in
    let a_ok := in_set a ["aac"; "mp3"; "ac3"; "eac3"] || (a =? "") in
    v_ok && a_ok
  else if in_set container ["webm"] then
    let v_ok := in_set v ["vp8"; "vp9"] in
    let a_ok := in_set a ["vorbis"; "opus"] in
    v_ok && a_ok
  else if in_set container ["mpg"; "mpeg"; "ts"; "m2ts"] then
    let v_ok := in_set v ["mpeg1video"; "mpeg2video"] in
    let a_ok := in_set a ["mp2"; "mp1"; "ac3"] in
    v_ok && a_ok
  else if in_set container ["avi"] then
    let v_ok := in_set v ["mpeg4"; "msmpeg4v3"; "h263"; "h264"] in
    let a_ok := in_set a ["mp3"; "ac3"; "aac"] in
    v_ok && a_ok
  else
    false.

Definition default_container_flags (container : string) : list string :=
  let container := lower container in
  let flags := [] in
  let flags :=
    if in_set container ["mp4"; "m4v"; "mov"]
    then flags ++ ["-movflags"; "+faststart"; "-pix_fmt"; "yuv420p"]
    else flags in
  flags.

(** The container names the table knows, grouped as the source tests them. *)
Definition matroska_family : list string := ["mkv"].
Definition mp4_family : list string := ["mp4"; "m4v"; "mov"].
Definition webm_family : list string := ["webm"].
Definition mpeg_family : list string := ["mpg"; "mpeg"; "ts"; "m2ts"].
Definition avi_family : list string := ["avi"].

Definition known_containers : list string :=
  matroska_family ++ mp4_family ++ webm_family ++ mpeg_family ++ avi_family.

Definition mp4_video_codecs : list string := ["h264"; "hevc"; "mpeg4"].

(** ** Command builder (source lines 139-214) *)

(** [str(burn_subs).replace("\\", "\\\\").replace(":", r"\:")], line 172. *)
Definition subs_path (burn_subs : Path) : string :=
  replace_char ":" (String backslash ":")
    (replace_char backslash (String backslash (String backslash ""))
       (path_str burn_subs)).

(** The local list [vf_chain], lines 163-173.  A [Path] object is always
    true in a condition, so [if burn_subs:] only tests for [None]. *)
Definition vf_chain
  (scale : option string) (deint : bool) (extra_filters : option string)
  (burn_subs : option Path) : list string :=
  let vf_chain := [] in
  let vf_chain := if deint then vf_chain ++ ["yadif"] else vf_chain in
  let vf_chain :=
    if truthy scale then vf_chain ++ [("scale=" ++ or_empty scale)%string]
    else vf_chain in
  let vf_chain :=
    if truthy extra_filters then vf_chain ++ [or_empty extra_filters]
    else vf_chain in
  let vf_chain :=
    match burn_subs with
    | Some p => vf_chain ++ [("subtitles='" ++ subs_path p ++ "'")%string]
    | None => vf_chain
    end in
  vf_chain.

(** Encoders for which the builder emits [-crf] and [-preset], line 188. *)
Definition crf_encoders : list string :=
  ["libx264"; "libx265"; "h264_nvenc"; "hevc_nvenc"].

Definition build_ffmpeg_cmd
  (src dst : Path) (mode : string)
  (vcodec acodec : option string)
  (crf preset video_bitrate maxrate bufsize audio_bitrate scale
     : option string)
  (deint : bool) (extra_filters : option string)
  (copy_subs no_subs : bool) (burn_subs : option Path)
  (threads : option Z) (overwrite : bool) : list string :=
  let cmd := ["ffmpeg"; "-hide_banner"; "-loglevel"; "info"] in
  let cmd := cmd ++ [if overwrite then "-y" else "-n"; "-i"; path_str src] in
  let vf := vf_chain scale deint extra_filters burn_subs in
  let cmd :=
    if no_subs then cmd ++ ["-sn"]
    else if copy_subs then cmd ++ ["-c:s"; "copy"]
    else cmd in
  if mode =? "remux" then
    let cmd := cmd ++ ["-c"; "copy"] in
    let cmd :=
      cmd ++ default_container_flags (lower (lstrip_dot (path_suffix dst))) in
    let cmd := cmd ++ [path_str dst] in
    cmd
  else
    let cmd :=
      if truthy vcodec then
        let cmd := cmd ++ ["-c:v"; or_empty vcodec] in
        let cmd :=
          if in_set (or_empty vcodec) crf_encoders then
            let cmd :=
              if truthy crf && negb (truthy video_bitrate)
              then cmd ++ ["-crf"; or_empty crf] else cmd in
            let cmd :=
              if truthy preset
              then cmd ++ ["-preset"; or_empty preset] else cmd in
            cmd
          else cmd in
        let cmd :=
          if truthy video_bitrate
          then cmd ++ ["-b:v"; or_empty video_bitrate] else cmd in
        let cmd :=
          if truthy maxrate
          then cmd ++ ["-maxrate"; or_empty maxrate] else cmd in
        let cmd :=
          if truthy bufsize
          then cmd ++ ["-bufsize"; or_empty bufsize] else cmd in
        cmd
      else cmd in
    let cmd :=
      if truthy acodec then
        let cmd := cmd ++ ["-c:a"; or_empty acodec] in
        let cmd :=
          if truthy audio_bitrate && negb (in_set (or_empty acodec) ["copy"])
          then cmd ++ ["-b:a"; or_empty audio_bitrate] else cmd in
        cmd
      else cmd in
    let cmd :=
      match vf with
      | [] => cmd
      | _ :: _ => cmd ++ ["-vf"; join "," vf]
      end in
    let cmd :=
      cmd ++ default_container_flags (lower (lstrip_dot (path_suffix dst))) in
    let cmd :=
      if truthy_int threads
      then cmd ++ ["-threads";
                   str_int (match threads with Some n => n | None => 0%Z end)]
      else cmd in
    let cmd := cmd ++ [path_str dst] in
    cmd.

(** ** Policy selection (the body of the loop in [main], lines 274-340) *)

(** The choices of [--quality]. *)
Inductive Quality : Type :=
  | QAuto | QUltra | QHigh | QBalanced | QFast | QCustom.

(** The parsed command line, restricted to the options read per file.
    [burn_subs] holds the already resolved path of line 344, [None] when
    the option is missing or empty. *)
Record Args : Type := mkArgs {
  quality : Quality;
  mode : string;                    (* --mode: auto, remux or transcode *)
  vcodec : option string;
  acodec : option string;
  crf : option string;
  preset : option string;
  video_bitrate : option string;    (* --b:v *)
  maxrate : option string;
  bufsize : option string;
  audio_bitrate : option string;
  scale : option string;
  deinterlace : bool;
  filters : option string;
  copy_subs : bool;
  no_subs : bool;
  burn_subs : option Path;
  threads : option Z;
  overwrite : bool
}.

(** What the policy hands to the builder. *)
Record Policy : Type := mkPolicy {
  effective_mode : string;
  vcodec_use : option string;
  acodec_use : option string;
  crf_use : option string;
  preset_use : option string;
  abr_use : option string
}.

Definition VCODEC_DEFAULTS : list (string * string) :=
  [("mp4", "libx264"); ("mkv", "libx264"); ("webm", "libvpx-vp9");
   ("avi", "libx264"); ("ts", "libx264"); ("mpg", "libx264")].

Definition ACODEC_DEFAULTS : list (string * string) :=
  [("mp4", "aac"); ("mkv", "aac"); ("webm", "libopus");
   ("avi", "aac"); ("ts", "aac"); ("mpg", "aac")].

(** Lines 288-340: [out_ext] is the target container, [probed_v] and
    [probed_a] are the codecs returned by [ffprobe_codecs].  The five
    [*_use] variables start as the user's values (lines 289-293). *)
Definition main_policy (args : Args) (out_ext : string)
  (probed_v probed_a : option string) : Policy :=
  match quality args with
  | QAuto =>
      if container_allows_codecs out_ext probed_v probed_a then
        {| effective_mode := "remux";
           vcodec_use := vcodec args;
           acodec_use := acodec args;
           crf_use := crf args;
           preset_use := preset args;
           abr_use := audio_bitrate args |}
      else
        {| effective_mode := "transcode";
           vcodec_use :=
             por (vcodec args) (dict_get VCODEC_DEFAULTS out_ext "libx264");
           acodec_use :=
             por (acodec args) (dict_get ACODEC_DEFAULTS out_ext "aac");
           crf_use := por (crf args) "20";
           preset_use := por (preset args) "fast";
           abr_use := por (audio_bitrate args) "192k" |}
  | QUltra =>
      {| effective_mode := "transcode";
         vcodec_use :=
           por (vcodec args) (dict_get VCODEC_DEFAULTS out_ext "libx264");
         acodec_use :=
           por (acodec args) (dict_get ACODEC_DEFAULTS out_ext "aac");
         crf_use := por (crf args) "18";
         preset_use := por (preset args) "slow";
         abr_use := por (audio_bitrate args) "320k" |}
  | QHigh =>
      {| effective_mode := "transcode";
         vcodec_use :=
           por (vcodec args) (dict_get VCODEC_DEFAULTS out_ext "libx264");
         acodec_use :=
           por (acodec args) (dict_get ACODEC_DEFAULTS out_ext "aac");
         crf_use := por (crf args) "19";
         preset_use := por (preset args) "medium";
         abr_use := por (audio_bitrate args) "256k" |}
  | QBalanced =>
      {| effective_mode := "transcode";
         vcodec_use :=
           por (vcodec args) (dict_get VCODEC_DEFAULTS out_ext "libx264");
         acodec_use :=
           por (acodec args) (dict_get ACODEC_DEFAULTS out_ext "aac");
         crf_use := por (crf args) "21";
         preset_use := por (preset args) "fast";
         abr_use := por (audio_bitrate args) "192k" |}
  | QFast =>
      {| effective_mode := "transcode";
         vcodec_use :=
           por (vcodec args) (dict_get VCODEC_DEFAULTS out_ext "libx264");
         acodec_use :=
           por (acodec args) (dict_get ACODEC_DEFAULTS out_ext "aac");
         crf_use := por (crf args) "23";
         preset_use := por (preset args) "veryfast";
         abr_use := por (audio_bitrate args) "160k" |}
  | QCustom =>
      {| effective_mode := mode args;
         vcodec_use := vcodec args;
         acodec_use := acodec args;
         crf_use := crf args;
         preset_use := preset args;
         abr_use := audio_bitrate args |}
  end.


(** Lines 346-358: the call of the builder with the resolved policy. *)
Definition main_cmd (args : Args) (out_ext : string)
  (src dst : Path) (probed_v probed_a : option string) : list string :=
  let p := main_policy args out_ext probed_v probed_a in
  build_ffmpeg_cmd src dst (effective_mode p)
    (vcodec_use p) (acodec_use p) (crf_use p) (preset_use p)
    (video_bitrate args) (maxrate args) (bufsize args) (abr_use p)
    (scale args) (deinterlace args) (filters args)
    (copy_subs args) (no_subs args) (burn_subs args) (threads args)
    (overwrite args).

(** ** Vocabulary for the statements *)

(** Option flags that select codecs, quality and rates. *)
Definition encoding_flags : list string :=
  ["-c:v"; "-c:a"; "-crf"; "-preset"; "-b:v"; "-b:a"; "-maxrate"; "-bufsize"].

(** The two codec selectors, lines 187 and 201. *)
Definition codec_flags : list string := ["-c:v"; "-c:a"].

(** The video rate-control flags emitted by lines 188-198. *)
Definition video_flags : list string :=
  ["-crf"; "-preset"; "-b:v"; "-maxrate"; "-bufsize"].

Definition opt_list (o : option string) : list string :=
  match o with
  | Some s => [s]
  | None => []
  end.

(** Every user-controlled string that the transcode branch can place in
    the argument list as the value of an option or as a path. *)
Definition operands
  (src dst : Path) (vcodec acodec : option string)
  (crf preset video_bitrate maxrate bufsize audio_bitrate scale
     : option string)
  (deint : bool) (extra_filters : option string) (burn_subs : option Path)
  : list string :=
  [path_str src; path_str dst]
    ++ opt_list vcodec ++ opt_list acodec ++ opt_list crf ++ opt_list preset
    ++ opt_list video_bitrate ++ opt_list maxrate ++ opt_list bufsize
    ++ opt_list audio_bitrate
    ++ [join "," (vf_chain scale deint extra_filters burn_subs)].

(** No operand is spelled like one of the flags in [fl]. *)
Definition clear_of (fl : list string) (ops : list string) : bool :=
  forallb (fun x => negb (in_set x fl)) ops.

(** One-pass reading of the subtitle path escaping: a backslash becomes two
    backslashes, a colon becomes backslash colon, any other character is
    kept. *)
Definition escape_char (c : ascii) : string :=
  if Ascii.eqb c backslash then String backslash (String backslash "")
  else if Ascii.eqb c ":" then String backslash ":"
  else String c "".

Fixpoint escape_path (s : string) : string :=
  match s with
  | EmptyString => EmptyString
  | String c s' => (escape_char c ++ escape_path s')%string
  end.

(** The entries of a list of optional items, in order. *)
Definition present (l : list (bool * string)) : list string :=
  map snd (filter fst l).

(** [l] occurs in [cmd] as a run of consecutive arguments. *)
Definition has_run (l cmd : list string) : Prop :=
  exists pre post, cmd = pre ++ l ++ post.

(** *** Sample inputs

    The file of the scenarios: [movie.mkv] with video h264 and audio aac,
    converted next to the source. *)

Definition movie_mkv : Path := mkPath "/in/movie.mkv" ".mkv".
Definition movie_mp4 : Path := mkPath "/in/movie.mp4" ".mp4".
Definition movie_webm : Path := mkPath "/in/movie.webm" ".webm".

(** A command line that sets only [--quality] (and [--mode], which has
    the default "auto"). *)
Definition args_of (q : Quality) (m : string) : Args :=
  {| quality := q; mode := m;
     vcodec := None; acodec := None; crf := None; preset := None;
     video_bitrate := None; maxrate := None; bufsize := None;
     audio_bitrate := None; scale := None; deinterlace := false;
     filters := None; copy_subs := false; no_subs := false;
     burn_subs := None; threads := None; overwrite := false |}.

(** The same command line with [--crf c] added. *)
Definition args_with_crf (q : Quality) (m : string) (c : string) : Args :=
  {| quality := q; mode := m;
     vcodec := None; acodec := None; crf := Some c; preset := None;
     video_bitrate := None; maxrate := None; bufsize := None;
     audio_bitrate := None; scale := None; deinterlace := false;
     filters := None; copy_subs := false; no_subs := false;
     burn_subs := None; threads := None; overwrite := false |}.

(** A Windows subtitle path, with a drive colon and backslashes. *)
Definition subs_srt : Path :=
  mkPath
    (String "C" (String ":" (String backslash
       (String "s" (String backslash "a.srt")))))
    ".srt".

(** *** The argument list by segments

    The builder grows [cmd] with [+=]; each block of the source adds one
    of the segments below. *)

(** Lines 160-161. *)
Definition head_args (overwrite : bool) (src : Path) : list string :=
  ["ffmpeg"; "-hide_banner"; "-loglevel"; "info";
   if overwrite then "-y" else "-n"; "-i"; path_str src].

(** Lines 175-178. *)
Definition subs_args (copy_subs no_subs : bool) : list string :=
  if no_subs then ["-sn"]
  else if copy_subs then ["-c:s"; "copy"]
  else [].

(** Lines 186-198. *)
Definition video_args
  (vcodec crf preset video_bitrate maxrate bufsize : option string)
  : list string :=
  if truthy vcodec then
    ["-c:v"; or_empty vcodec]
      ++ (if in_set (or_empty vcodec) crf_encoders then
            (if truthy crf && negb (truthy video_bitrate)
             then ["-crf"; or_empty crf] else [])
              ++ (if truthy preset then ["-preset"; or_empty preset] else [])
          else [])
      ++ (if truthy video_bitrate then ["-b:v"; or_empty video_bitrate]
          else [])
      ++ (if truthy maxrate then ["-maxrate"; or_empty maxrate] else [])
      ++ (if truthy bufsize then ["-bufsize"; or_empty bufsize] else [])
  else [].

(** Lines 200-203. *)
Definition audio_args (acodec audio_bitrate : option string) : list string :=
  if truthy acodec then
    ["-c:a"; or_empty acodec]
      ++ (if truthy audio_bitrate && negb (in_set (or_empty acodec) ["copy"])
          then ["-b:a"; or_empty audio_bitrate] else [])
  else [].

(** Lines 205-206. *)
Definition vf_args (vf : list string) : list string :=
  match vf with
  | [] => []
  | _ :: _ => ["-vf"; join "," vf]
  end.

(** Lines 210-211. *)
Definition threads_args (threads : option Z) : list string :=
  match threads with
  | Some n => if (n =? 0)%Z then [] else ["-threads"; str_int n]
  | None => []
  end.

(** Lines 182 and 208. *)
Definition container_flags (dst : Path) : list string :=
  default_container_flags (lower (lstrip_dot (path_suffix dst))).

(** ** Further parts of [main] *)


(** Reading an escaped subtitle path back: a backslash gives the character
    after it.  Not part of the program; it serves to state that the
    escaping of line 172 loses nothing. *)
Fixpoint unescape_path (s : string) : string :=
  match s with
  | EmptyString => EmptyString
  | String c s' =>
      if Ascii.eqb c backslash then
        match s' with
        | EmptyString => String c EmptyString
        | String d s'' => String d (unescape_path s'')
        end
      else String c (unescape_path s')
  end.

(** [c in s] for a character [c]. *)
Fixpoint contains_char (c : ascii) (s : string) : bool :=
  match s with
  | EmptyString => false
  | String x s' => Ascii.eqb x c || contains_char c s'
  end.

(** What the builder writes between the subtitle switch and the
    destination path, in either mode (lines 180-211). *)
Definition body_args
  (mode : string) (dst : Path) (vcodec acodec : option string)
  (crf preset video_bitrate maxrate bufsize audio_bitrate scale
     : option string)
  (deint : bool) (extra_filters : option string) (burn_subs : option Path)
  (threads : option Z) : list string :=
  if mode =? "remux" then ["-c"; "copy"] ++ container_flags dst
  else video_args vcodec crf preset video_bitrate maxrate bufsize
         ++ audio_args acodec audio_bitrate
         ++ vf_args (vf_chain scale deint extra_filters burn_subs)
         ++ container_flags dst
         ++ threads_args threads.

End Model.

(** The reading of [lower] on ASCII text, for evaluating the model on
    sample inputs. *)
Definition ascii_text : Lower.
Proof.
  refine {| lower := fold_ascii;
            lower_ascii_text := fun s _ => eq_refl;
            lower_idem := _ |}.
  abstract
    (intros s; induction s as [| c s IH]; [reflexivity |];
     cbn [fold_ascii]; rewrite IH; f_equal;
     destruct c as [[] [] [] [] [] [] [] []]; reflexivity).
Defined.

(** * Properties *)

Section Generic.

Context {L : Lower}.

(** ** Generic facts *)

Lemma in_set_In (x : string) (l : list string) :
  in_set x l = true <-> In x l.
Proof.
  unfold in_set. rewrite existsb_exists. split.
  - intros [y [Hy E]]. apply String.eqb_eq in E. now subst.
  - intros H. exists x. split; [assumption | apply String.eqb_refl].
Qed.

Lemma in_set_not_In (x : string) (l : list string) :
  in_set x l = false <-> ~ In x l.
Proof.
  rewrite <- in_set_In. destruct (in_set x l); intuition congruence.
Qed.

Lemma if_app {A : Type} (b : bool) (cmd extra : list A) :
  (if b then cmd ++ extra else cmd) = cmd ++ (if b then extra else []).
Proof.
  destruct b; [reflexivity | now rewrite app_nil_r].
Qed.

Lemma lower_empty : lower "" = "".
Proof.
  exact (lower_ascii_text "" eq_refl).
Qed.

(** A lower-case ASCII literal is its own lower-case form. *)
Lemma lower_literal (s : string) :
  is_ascii s = true -> fold_ascii s = s -> lower s = s.
Proof.
  intros Ha Hf. now rewrite lower_ascii_text.
Qed.

(** ** The builder by segments *)

Section Builder.

Variables (src dst : Path) (md : string).
Variables (vc ac cr pr vb mr bs ab sc : option string).
Variable (deint : bool) (ef : option string).
Variables (cs ns : bool) (burn : option Path).
Variable (th : option Z) (ow : bool).

(** In remux mode the list is the head, the subtitle switch, the stream
    copy, the container flags and the destination: nothing else. *)
Lemma build_remux_eq :
  build_ffmpeg_cmd src dst "remux" vc ac cr pr vb mr bs ab sc deint ef
    cs ns burn th ow
  = head_args ow src ++ subs_args cs ns
      ++ ["-c"; "copy"] ++ container_flags dst ++ [path_str dst].
Proof.
  unfold build_ffmpeg_cmd, head_args, subs_args, container_flags.
  cbn [String.eqb Ascii.eqb Bool.eqb].
  destruct ns, cs; cbn [app]; rewrite <- ?app_assoc; reflexivity.
Qed.

(** In every other mode the list is the concatenation of the segments,
    in source order. *)
Lemma build_transcode_eq :
  md <> "remux" ->
  build_ffmpeg_cmd src dst md vc ac cr pr vb mr bs ab sc deint ef
    cs ns burn th ow
  = head_args ow src ++ subs_args cs ns
      ++ video_args vc cr pr vb mr bs
      ++ audio_args ac ab
      ++ vf_args (vf_chain sc deint ef burn)
      ++ container_flags dst
      ++ threads_args th
      ++ [path_str dst].
Proof.
  intros Hmd. apply String.eqb_neq in Hmd.
  unfold build_ffmpeg_cmd. rewrite Hmd.
  unfold video_args, audio_args, vf_args, threads_args, container_flags,
    subs_args, truthy_int.
  generalize (default_container_flags (lower (lstrip_dot (path_suffix dst))))
    as flags.
  generalize (vf_chain sc deint ef burn) as vf.
  intros vf flags.
  pose (hd := head_args ow src). fold hd.
  cbv zeta.
  change ([ "ffmpeg"; "-hide_banner"; "-loglevel"; "info"]
            ++ [if ow then "-y" else "-n"; "-i"; path_str src]) with hd.
  assert (Hvf : forall c : list string,
             match vf with [] => c | _ :: _ => c ++ ["-vf"; join "," vf] end
             = c ++ match vf with [] => [] | _ :: _ => ["-vf"; join "," vf] end).
  { intros c. destruct vf; [now rewrite app_nil_r | reflexivity]. }
  rewrite Hvf.
  assert (Hth : forall c : list string,
             (if match th with Some n => negb (n =? 0)%Z | None => false end
              then c ++ ["-threads";
                         str_int match th with Some n => n | None => 0%Z end]
              else c)
             = c ++ match th with
                    | Some n => if (n =? 0)%Z then [] else ["-threads"; str_int n]
                    | None => []
                    end).
  { intros c. destruct th as [n|]; [destruct (n =? 0)%Z |];
      cbn [negb]; rewrite ?app_nil_r; reflexivity. }
  rewrite Hth.
  assert (Hsub :
            (if ns then hd ++ ["-sn"]
             else if cs then hd ++ ["-c:s"; "copy"] else hd)
            = hd ++ (if ns then ["-sn"]
                     else if cs then ["-c:s"; "copy"] else [])).
  { destruct ns, cs; rewrite ?app_nil_r; reflexivity. }
  rewrite Hsub. clear Hsub Hvf Hth.
  rewrite (app_assoc hd).
  generalize (hd ++ (if ns then ["-sn"]
                     else if cs then ["-c:s"; "copy"] else [])) as c.
  intros c.
  repeat (rewrite if_app || rewrite <- app_assoc).
  reflexivity.
Qed.

End Builder.

(** ** Compatibility table *)

Lemma known_containers_split (c : string) :
  In c known_containers <->
  In c matroska_family \/ In c mp4_family \/ In c webm_family
  \/ In c mpeg_family \/ In c avi_family.
Proof.
  unfold known_containers. rewrite !in_app_iff. tauto.
Qed.

(** C9.  For the Matroska container ([mkv], in any letter case, as the
    function lower-cases its argument) [container_allows_codecs] returns
    true for every video codec and every audio codec, absent ones
    ([None]) included. *)
Theorem mkv_allows_all_codecs
  (container : string) (vcodec acodec : option string) :
  In (lower container) matroska_family ->
  container_allows_codecs container vcodec acodec = true.
Proof.
  intros H. apply in_set_In in H.
  unfold container_allows_codecs, matroska_family in *.
  cbv zeta. now rewrite H.
Qed.

(** C8 (as amended).  For every container whose name, lower-cased as the
    function does on entry, is none of mkv, mp4, m4v, mov, webm, mpg, mpeg,
    ts, m2ts, avi, and for every pair of video and audio codecs,
    [container_allows_codecs] returns false. *)
Theorem unknown_container_forces_transcode
  (container : string) (vcodec acodec : option string) :
  ~ In (lower container) known_containers ->
  container_allows_codecs container vcodec acodec = false.
Proof.
  intros H. rewrite known_containers_split in H.
  unfold container_allows_codecs. cbv zeta.
  destruct (in_set (lower container) ["mkv"]) eqn:E1.
  { apply in_set_In in E1. tauto. }
  destruct (in_set (lower container) ["mp4"; "m4v"; "mov"]) eqn:E2.
  { apply in_set_In in E2. tauto. }
  destruct (in_set (lower container) ["webm"]) eqn:E3.
  { apply in_set_In in E3. tauto. }
  destruct (in_set (lower container) ["mpg"; "mpeg"; "ts"; "m2ts"]) eqn:E4.
  { apply in_set_In in E4. tauto. }
  destruct (in_set (lower container) ["avi"]) eqn:E5.
  { apply in_set_In in E5. tauto. }
  reflexivity.
Qed.

(** C6.  With the audio codec absent ([None], or the empty string that
    [acodec or ""] turns it into), [container_allows_codecs] returns true
    for mp4, m4v and mov whenever the video codec is one of h264, hevc,
    mpeg4; and it returns false for webm, for mpg, mpeg, ts, m2ts and for
    avi whatever the video codec is. *)
Theorem absent_audio_asymmetry
  (container : string) (vcodec : option string) :
  (In (lower container) mp4_family ->
   In (lower (or_empty vcodec)) mp4_video_codecs ->
   container_allows_codecs container vcodec None = true
   /\ container_allows_codecs container vcodec (Some "") = true)
  /\
  (In (lower container) (webm_family ++ mpeg_family ++ avi_family) ->
   container_allows_codecs container vcodec None = false
   /\ container_allows_codecs container vcodec (Some "") = false).
Proof.
  assert (Hfam : forall fam : list string,
             In (lower container) fam ->
             forall other : list string,
               (forall x, In x fam -> ~ In x other) ->
               in_set (lower container) other = false).
  { intros fam Hin other Hdis. apply in_set_not_In. now apply Hdis. }
  split.
  - intros Hc Hv.
    assert (Hm : in_set (lower container) ["mkv"] = false).
    { apply (Hfam _ Hc). unfold mp4_family. cbn [In].
      intros x [<- | [<- | [<- | []]]]; intuition discriminate. }
    apply in_set_In in Hc. apply in_set_In in Hv.
    unfold mp4_family, mp4_video_codecs in *.
    unfold container_allows_codecs. cbv zeta. cbn [or_empty].
    rewrite Hm, Hc, Hv, lower_empty. split; reflexivity.
  - intros Hc.
    assert (Hm : in_set (lower container) ["mkv"] = false).
    { apply (Hfam _ Hc). unfold webm_family, mpeg_family, avi_family.
      cbn [In app]. intros x Hx. intuition (subst; discriminate). }
    assert (Hp : in_set (lower container) ["mp4"; "m4v"; "mov"] = false).
    { apply (Hfam _ Hc). unfold webm_family, mpeg_family, avi_family.
      cbn [In app]. intros x Hx. intuition (subst; discriminate). }
    unfold container_allows_codecs. cbv zeta. cbn [or_empty].
    rewrite Hm, Hp, lower_empty.
    destruct (in_set (lower container) ["webm"]);
      [ split; apply andb_false_r |].
    destruct (in_set (lower container) ["mpg"; "mpeg"; "ts"; "m2ts"]);
      [ split; apply andb_false_r |].
    destruct (in_set (lower container) ["avi"]);
      [ split; apply andb_false_r | split; reflexivity ].
Qed.

(** ** Remux mode *)

(** Every string the remux branch writes on its own account. *)
Lemma remux_literals (ow cs ns : bool) (dst : Path) :
  incl (["ffmpeg"; "-hide_banner"; "-loglevel"; "info";
         if ow then "-y" else "-n"; "-i"]
          ++ subs_args cs ns ++ ["-c"; "copy"] ++ container_flags dst)
       ["ffmpeg"; "-hide_banner"; "-loglevel"; "info"; "-y"; "-n"; "-i";
        "-sn"; "-c:s"; "copy"; "-c";
        "-movflags"; "+faststart"; "-pix_fmt"; "yuv420p"].
Proof.
  unfold subs_args, container_flags, default_container_flags. cbv zeta.
  destruct ow, ns, cs, (in_set _ _); cbn [app];
    intros x Hx; cbn [In] in *; intuition.
Qed.

Lemma count_occ_incl_zero (f : string) (l vocab : list string) :
  incl l vocab -> ~ In f vocab -> count_occ string_dec l f = 0.
Proof.
  intros Hi Hf. apply count_occ_not_In. intros H. apply Hf, Hi, H.
Qed.

(** A string that is none of the remux literals occurs in the remux
    argument list exactly as often as it occurs among the two paths. *)
Lemma remux_count
  (src dst : Path) (vc ac cr pr vb mr bs ab sc : option string)
  (deint : bool) (ef : option string) (cs ns : bool) (burn : option Path)
  (th : option Z) (ow : bool) (f : string) :
  ~ In f ["ffmpeg"; "-hide_banner"; "-loglevel"; "info"; "-y"; "-n"; "-i";
          "-sn"; "-c:s"; "copy"; "-c";
          "-movflags"; "+faststart"; "-pix_fmt"; "yuv420p"] ->
  count_occ string_dec
    (build_ffmpeg_cmd src dst "remux" vc ac cr pr vb mr bs ab sc deint ef
       cs ns burn th ow) f
  = count_occ string_dec [path_str src; path_str dst] f.
Proof.
  intros Hf. rewrite build_remux_eq.
  pose proof (remux_literals ow cs ns dst) as Hi.
  assert (Hz := count_occ_incl_zero f _ _ Hi Hf).
  rewrite !count_occ_app in Hz.
  change (head_args ow src)
    with (["ffmpeg"; "-hide_banner"; "-loglevel"; "info";
           if ow then "-y" else "-n"; "-i"] ++ [path_str src]).
  change [path_str src; path_str dst]
    with ([path_str src] ++ [path_str dst]).
  rewrite !count_occ_app. lia.
Qed.

(** C4.  In remux mode, whatever codecs, CRF, preset, bitrates, filters
    and thread count are passed in, the argument list ends with the
    stream copy ["-c"; "copy"], then the finalization flags of the
    destination container (-movflags +faststart -pix_fmt yuv420p when the
    suffix of the destination is mp4, m4v or mov in any letter case,
    nothing otherwise), then the destination path; and none of -c:v, -c:a,
    -crf, -preset, -b:v, -b:a, -maxrate, -bufsize is emitted: such a
    string occurs in the list only where the source or destination path is
    itself spelled that way. *)
Theorem remux_emits_copy_and_no_encoding_flags
  (src dst : Path) (vc ac cr pr vb mr bs ab sc : option string)
  (deint : bool) (ef : option string) (cs ns : bool) (burn : option Path)
  (th : option Z) (ow : bool) :
  has_run
    (["-c"; "copy"]
       ++ (if in_set (lower (lstrip_dot (path_suffix dst))) mp4_family
           then ["-movflags"; "+faststart"; "-pix_fmt"; "yuv420p"]
           else [])
       ++ [path_str dst])
    (build_ffmpeg_cmd src dst "remux" vc ac cr pr vb mr bs ab sc deint ef
       cs ns burn th ow)
  /\ forall f : string,
      In f encoding_flags ->
      count_occ string_dec
        (build_ffmpeg_cmd src dst "remux" vc ac cr pr vb mr bs ab sc deint ef
           cs ns burn th ow) f
      = count_occ string_dec [path_str src; path_str dst] f.
Proof.
  split.
  - exists (head_args ow src ++ subs_args cs ns), [].
    rewrite build_remux_eq, app_nil_r, <- !app_assoc.
    unfold container_flags, default_container_flags. cbv zeta.
    rewrite lower_idem. reflexivity.
  - intros f Hf. apply remux_count.
    cbn [In encoding_flags] in Hf.
    repeat (destruct Hf as [<- | Hf]); try contradiction;
      cbn [In]; intuition discriminate.
Qed.

(** C10.  In remux mode no [-vf] option is emitted (the string "-vf"
    occurs only where a path is spelled that way), and the argument list
    does not depend on the deinterlace switch, the scale, the user filter
    string or the burn-subs path: the filter chain is computed and then
    dropped. *)
Theorem remux_drops_filter_chain
  (src dst : Path) (vc ac cr pr vb mr bs ab sc : option string)
  (deint : bool) (ef : option string) (cs ns : bool) (burn : option Path)
  (th : option Z) (ow : bool) :
  count_occ string_dec
    (build_ffmpeg_cmd src dst "remux" vc ac cr pr vb mr bs ab sc deint ef
       cs ns burn th ow) "-vf"
  = count_occ string_dec [path_str src; path_str dst] "-vf"
  /\ forall (sc' : option string) (deint' : bool) (ef' : option string)
       (burn' : option Path),
      build_ffmpeg_cmd src dst "remux" vc ac cr pr vb mr bs ab sc deint ef
        cs ns burn th ow
      = build_ffmpeg_cmd src dst "remux" vc ac cr pr vb mr bs ab sc' deint' ef'
          cs ns burn' th ow.
Proof.
  split.
  - apply remux_count. cbn [In]. intuition discriminate.
  - intros. now rewrite !build_remux_eq.
Qed.

(** ** Transcode mode: the video rate-control flags *)

Lemma in_if_nil (b : bool) (l : list string) (x : string) :
  In x (if b then l else []) <-> b = true /\ In x l.
Proof.
  destruct b; cbn [In]; intuition discriminate.
Qed.

Lemma clear_of_spec (fl ops : list string) :
  clear_of fl ops = true ->
  forall o f : string, In o ops -> In f fl -> o <> f.
Proof.
  unfold clear_of. rewrite forallb_forall. intros H o f Ho Hf E. subst o.
  specialize (H f Ho). apply negb_true_iff, in_set_not_In in H. tauto.
Qed.

Lemma truthy_some (o : option string) :
  truthy o = true -> In (or_empty o) (opt_list o).
Proof.
  destruct o; [left; reflexivity | discriminate].
Qed.

(** A printed integer is never spelled like a rate-control flag. *)
Lemma str_int_not_video_flag (n : Z) (f : string) :
  In f video_flags -> str_int n <> f.
Proof.
  intros Hf. unfold str_int.
  cbn [In video_flags] in Hf.
  destruct (Z.to_int n) as [d | d]; destruct d;
    repeat (destruct Hf as [<- | Hf]); try contradiction;
    cbn [NilEmpty.string_of_int NilEmpty.string_of_uint]; discriminate.
Qed.

Section Transcode.

Variables (src dst : Path) (md : string).
Variables (vc ac cr pr vb mr bs ab sc : option string).
Variable (deint : bool) (ef : option string).
Variables (cs ns : bool) (burn : option Path).
Variable (th : option Z) (ow : bool).

Hypothesis Hmd : md <> "remux".
Hypothesis Hclear :
  clear_of video_flags
    (operands src dst vc ac cr pr vb mr bs ab sc deint ef burn) = true.

Let cmd : list string :=
  build_ffmpeg_cmd src dst md vc ac cr pr vb mr bs ab sc deint ef
    cs ns burn th ow.

Lemma operand_neq (o f : string) :
  In o (operands src dst vc ac cr pr vb mr bs ab sc deint ef burn) ->
  In f video_flags -> o <> f.
Proof.
  intros Ho Hf. exact (clear_of_spec _ _ Hclear o f Ho Hf).
Qed.

Lemma value_neq (o : option string) (f : string) :
  In o [vc; ac; cr; pr; vb; mr; bs; ab] ->
  In f video_flags -> truthy o = true -> or_empty o <> f.
Proof.
  intros Ho Hf Ht. apply operand_neq; [| assumption].
  apply truthy_some in Ht. unfold operands. rewrite !in_app_iff.
  cbn [In] in Ho.
  repeat (destruct Ho as [<- | Ho]); try contradiction; tauto.
Qed.

(** Outside the video block no rate-control flag occurs. *)
Lemma video_flag_only_in_video_args (f : string) :
  In f video_flags ->
  (In f cmd <-> In f (video_args vc cr pr vb mr bs)).
Proof.
  intros Hf. unfold cmd. rewrite (build_transcode_eq _ _ _ _ _ _ _ _ _ _ _ _ _ _ _ _ _ _ _ Hmd).
  assert (Hsrc : path_str src <> f).
  { apply operand_neq; [left; reflexivity | assumption]. }
  assert (Hdst : path_str dst <> f).
  { apply operand_neq; [right; left; reflexivity | assumption]. }
  assert (Hvf : join "," (vf_chain sc deint ef burn) <> f).
  { apply operand_neq; [| assumption].
    unfold operands. rewrite !in_app_iff. cbn [In]. tauto. }
  assert (Hac := value_neq ac f).
  assert (Hab := value_neq ab f).
  assert (Hth : forall n, str_int n <> f).
  { intros n. now apply str_int_not_video_flag. }
  assert (H1 : ~ In f (head_args ow src)).
  { unfold head_args. cbn [In video_flags] in Hf.
    destruct ow; cbn [In]; intros H; intuition (subst; discriminate). }
  assert (H2 : ~ In f (subs_args cs ns)).
  { unfold subs_args. cbn [In video_flags] in Hf.
    destruct ns, cs; cbn [In]; intros H; intuition (subst; discriminate). }
  assert (H3 : ~ In f (audio_args ac ab)).
  { unfold audio_args. rewrite in_if_nil, in_app_iff, in_if_nil.
    cbn [In]. intros [Ht [[E | [E | []]] | [Hb [E | [E | []]]]]].
    - subst f. cbn [In video_flags] in Hf. intuition discriminate.
    - apply (Hac ltac:(cbn [In]; tauto) Hf Ht E).
    - subst f. cbn [In video_flags] in Hf. intuition discriminate.
    - apply andb_true_iff in Hb. destruct Hb as [Hb _].
      apply (Hab ltac:(cbn [In]; tauto) Hf Hb E). }
  assert (H4 : ~ In f (vf_args (vf_chain sc deint ef burn))).
  { unfold vf_args. destruct (vf_chain sc deint ef burn) eqn:Evf.
    - intros [].
    - cbn [In]. intros [E | [E | []]]; [| contradiction].
      subst f. cbn [In video_flags] in Hf. intuition discriminate. }
  assert (H5 : ~ In f (container_flags dst)).
  { unfold container_flags, default_container_flags. cbv zeta.
    cbn [In video_flags] in Hf.
    destruct (in_set _ _); cbn [In app]; intros H;
      intuition (subst; discriminate). }
  assert (H6 : ~ In f (threads_args th)).
  { unfold threads_args. destruct th as [n |]; [| intros []].
    destruct (n =? 0)%Z; [intros [] |].
    cbn [In]. intros [E | [E | []]]; [| apply (Hth n E)].
    subst f. cbn [In video_flags] in Hf. intuition discriminate. }
  rewrite !in_app_iff. cbn [In]. intuition congruence.
Qed.

End Transcode.

Lemma crf_encoder_truthy (vc : option string) :
  in_set (or_empty vc) crf_encoders = true -> truthy vc = true.
Proof.
  destruct vc as [s |]; cbn [or_empty truthy]; [| discriminate].
  intros H. destruct (s =? "") eqn:E; [| reflexivity].
  apply String.eqb_eq in E. subst s. discriminate H.
Qed.

Lemma pair_lit (fl v f : string) :
  v <> f -> (In f [fl; v] <-> fl = f).
Proof.
  cbn [In]. tauto.
Qed.

Lemma pair_seg (c : bool) (fl v f : string) :
  (c = true -> v <> f) ->
  (In f (if c then [fl; v] else []) <-> c = true /\ fl = f).
Proof.
  destruct c; cbn [In]; intuition discriminate.
Qed.

(** Which rate-control flags the video block emits. *)
Lemma video_args_flags (vc cr pr vb mr bs : option string) :
  (forall (o : option string) (f : string),
      In o [vc; cr; pr; vb; mr; bs] -> In f video_flags ->
      truthy o = true -> or_empty o <> f) ->
  (In "-crf" (video_args vc cr pr vb mr bs) <->
     truthy cr = true /\ truthy vb = false
     /\ in_set (or_empty vc) crf_encoders = true)
  /\ (In "-preset" (video_args vc cr pr vb mr bs) <->
        truthy pr = true /\ in_set (or_empty vc) crf_encoders = true)
  /\ (In "-b:v" (video_args vc cr pr vb mr bs) <->
        truthy vb = true /\ truthy vc = true)
  /\ (In "-maxrate" (video_args vc cr pr vb mr bs) <->
        truthy mr = true /\ truthy vc = true)
  /\ (In "-bufsize" (video_args vc cr pr vb mr bs) <->
        truthy bs = true /\ truthy vc = true).
Proof.
  intros Hne.
  assert (Hcrf : forall f, In f video_flags ->
            truthy cr && negb (truthy vb) = true -> or_empty cr <> f).
  { intros f Hf Hc. apply andb_true_iff in Hc.
    apply Hne; [cbn [In]; tauto | assumption | tauto]. }
  pose proof (crf_encoder_truthy vc) as Henc.
  unfold video_args.
  destruct (truthy vc) eqn:Evc.
  - assert (Hvc : forall f, In f video_flags -> or_empty vc <> f).
    { intros f Hf. apply Hne; [cbn [In]; tauto | assumption | assumption]. }
    destruct (in_set (or_empty vc) crf_encoders) eqn:Ee;
      repeat split; intros;
      repeat match goal with
        | H : _ /\ _ |- _ => destruct H
        | H : In _ (_ ++ _) |- _ => apply in_app_iff in H; destruct H
        | H : In _ [_; or_empty vc] |- _ =>
            apply pair_lit in H;
            [discriminate H | apply Hvc; cbn [In video_flags]; tauto]
        | H : In _ (if truthy cr && negb (truthy vb) then _ else _) |- _ =>
            apply pair_seg in H;
            [ let E := fresh "E" in
              destruct H as [H E]; apply andb_true_iff in H;
              rewrite negb_true_iff in H
            | apply Hcrf; cbn [In video_flags]; tauto ]
        | H : In _ (if truthy ?o then _ else _) |- _ =>
            apply pair_seg in H;
            [ | intros; apply Hne;
                [cbn [In]; tauto | cbn [In video_flags]; tauto | assumption]]
        | H : In _ [] |- _ => destruct H
        end;
      try congruence; try tauto.
    all: rewrite ?in_app_iff.
    all: repeat match goal with
        | H : truthy _ = _ |- _ => rewrite H
        end; cbn [negb andb In]; tauto.
  - assert (Ee : in_set (or_empty vc) crf_encoders = false).
    { destruct (in_set _ _); [now specialize (Henc eq_refl) | reflexivity]. }
    rewrite Ee. cbn [In]. repeat split; intros; intuition discriminate.
Qed.

(** C2 (as amended).  In transcode mode (any mode other than "remux"),
    provided no path or option value is itself spelled like one of the five
    flags: [-crf] is emitted exactly when a CRF is given, no video bitrate
    is given and the video codec is one of libx264, libx265, h264_nvenc,
    hevc_nvenc; [-preset] is emitted exactly when a preset is given and the
    video codec is one of those four encoders; [-b:v], [-maxrate] and
    [-bufsize] are emitted exactly when their value is given and a video
    codec is set.  With libvpx-vp9, the default for webm, neither [-crf] nor
    [-preset] appears. *)
Theorem transcode_rate_control_flags
  (src dst : Path) (md : string)
  (vc ac cr pr vb mr bs ab sc : option string)
  (deint : bool) (ef : option string) (cs ns : bool) (burn : option Path)
  (th : option Z) (ow : bool) (cmd : list string) :
  md <> "remux" ->
  clear_of video_flags
    (operands src dst vc ac cr pr vb mr bs ab sc deint ef burn) = true ->
  cmd = build_ffmpeg_cmd src dst md vc ac cr pr vb mr bs ab sc deint ef
          cs ns burn th ow ->
  (In "-crf" cmd <->
     truthy cr = true /\ truthy vb = false
     /\ in_set (or_empty vc) crf_encoders = true)
  /\ (In "-preset" cmd <->
        truthy pr = true /\ in_set (or_empty vc) crf_encoders = true)
  /\ (In "-b:v" cmd <-> truthy vb = true /\ truthy vc = true)
  /\ (In "-maxrate" cmd <-> truthy mr = true /\ truthy vc = true)
  /\ (In "-bufsize" cmd <-> truthy bs = true /\ truthy vc = true)
  /\ (or_empty vc = "libvpx-vp9" ->
      ~ In "-crf" cmd /\ ~ In "-preset" cmd).
Proof.
  intros Hmd Hclear ->.
  pose proof (video_flag_only_in_video_args src dst md vc ac cr pr vb mr bs
                ab sc deint ef cs ns burn th ow Hmd Hclear) as Hloc.
  assert (Hne : forall (o : option string) (f : string),
             In o [vc; cr; pr; vb; mr; bs] -> In f video_flags ->
             truthy o = true -> or_empty o <> f).
  { intros o f Ho Hf Ht.
    apply (value_neq src dst vc ac cr pr vb mr bs ab sc deint ef burn Hclear);
      [| assumption | assumption].
    cbn [In] in *. tauto. }
  destruct (video_args_flags vc cr pr vb mr bs Hne)
    as (Hcrf & Hpre & Hbv & Hmax & Hbuf).
  assert (F1 := Hloc "-crf" ltac:(cbn [In video_flags]; tauto)).
  assert (F2 := Hloc "-preset" ltac:(cbn [In video_flags]; tauto)).
  assert (F3 := Hloc "-b:v" ltac:(cbn [In video_flags]; tauto)).
  assert (F4 := Hloc "-maxrate" ltac:(cbn [In video_flags]; tauto)).
  assert (F5 := Hloc "-bufsize" ltac:(cbn [In video_flags]; tauto)).
  do 5 (split; [tauto |]).
  intros E. rewrite E in *. split; intros H.
  - apply F1, Hcrf in H. destruct H as (_ & _ & H). discriminate H.
  - apply F2, Hpre in H. destruct H as (_ & H). discriminate H.
Qed.

(** ** Policy selection *)

Lemma por_unset (o : option string) (d : string) :
  truthy o = false -> por o d = Some d.
Proof.
  unfold por. now intros ->.
Qed.

Lemma por_set (s d : string) :
  s <> "" -> por (Some s) d = Some s.
Proof.
  intros H. unfold por, truthy. apply String.eqb_neq in H. now rewrite H.
Qed.

(** A printed integer is never spelled like a codec selector. *)
Lemma str_int_not_codec_flag (n : Z) (f : string) :
  In f codec_flags -> str_int n <> f.
Proof.
  intros Hf. unfold str_int.
  cbn [In codec_flags] in Hf.
  destruct (Z.to_int n) as [d | d]; destruct d;
    repeat (destruct Hf as [<- | Hf]); try contradiction;
    cbn [NilEmpty.string_of_int NilEmpty.string_of_uint]; discriminate.
Qed.

(** What a flag-and-value pair of the builder can contribute. *)
Lemma pair_vocab (c : bool) (fl : string) (o : option string) (x : string) :
  (c = true -> truthy o = true) ->
  In x (if c then [fl; or_empty o] else []) ->
  fl = x \/ In x (opt_list o).
Proof.
  intros Hc H. destruct c; [| destruct H].
  destruct H as [<- | [<- | []]]; [now left |].
  right. now apply truthy_some, Hc.
Qed.

Lemma video_args_vocab (vc cr pr vb mr bs : option string) (x : string) :
  In x (video_args vc cr pr vb mr bs) ->
  In x ["-c:v"; "-crf"; "-preset"; "-b:v"; "-maxrate"; "-bufsize"]
  \/ In x (opt_list vc ++ opt_list cr ++ opt_list pr ++ opt_list vb
             ++ opt_list mr ++ opt_list bs).
Proof.
  unfold video_args. intros H.
  apply in_if_nil in H. destruct H as [Hvc H].
  rewrite !in_app_iff. cbn [In].
  apply in_app_iff in H. destruct H as [H | H].
  { destruct H as [<- | [<- | []]]; [tauto |].
    apply truthy_some in Hvc. tauto. }
  apply in_app_iff in H. destruct H as [H | H].
  { apply in_if_nil in H. destruct H as [_ H].
    apply in_app_iff in H. destruct H as [H | H];
      apply pair_vocab in H;
      try (intros E; try apply andb_true_iff in E; tauto); tauto. }
  apply in_app_iff in H. destruct H as [H | H].
  { apply pair_vocab in H; tauto. }
  apply in_app_iff in H. destruct H as [H | H];
    apply pair_vocab in H; tauto.
Qed.

Lemma audio_args_vocab (ac ab : option string) (x : string) :
  In x (audio_args ac ab) ->
  In x ["-c:a"; "-b:a"] \/ In x (opt_list ac ++ opt_list ab).
Proof.
  unfold audio_args. intros H.
  apply in_if_nil in H. destruct H as [Hac H].
  rewrite !in_app_iff. cbn [In].
  apply in_app_iff in H. destruct H as [H | H].
  { destruct H as [<- | [<- | []]]; [tauto |].
    apply truthy_some in Hac. tauto. }
  apply pair_vocab in H;
    try (intros E; apply andb_true_iff in E; tauto); tauto.
Qed.

Section CodecSelectors.

Variables (src dst : Path) (md : string).
Variables (vc ac cr pr vb mr bs ab sc : option string).
Variable (deint : bool) (ef : option string).
Variables (cs ns : bool) (burn : option Path).
Variable (th : option Z) (ow : bool).

Hypothesis Hclear :
  clear_of codec_flags
    (operands src dst vc ac cr pr vb mr bs ab sc deint ef burn) = true.

(** Apart from the video and the audio block, no part of the list holds a
    codec selector. *)
Lemma codec_flag_only_in_codec_blocks (f : string) :
  In f codec_flags ->
  In f (build_ffmpeg_cmd src dst md vc ac cr pr vb mr bs ab sc deint ef
          cs ns burn th ow) ->
  md <> "remux"
  /\ (In f (video_args vc cr pr vb mr bs) \/ In f (audio_args ac ab)).
Proof.
  intros Hf Hin.
  assert (Hop : forall o, In o (operands src dst vc ac cr pr vb mr bs ab sc
                                 deint ef burn) -> o <> f).
  { intros o Ho. exact (clear_of_spec _ _ Hclear o f Ho Hf). }
  assert (Hsrc : path_str src <> f) by (apply Hop; left; reflexivity).
  assert (Hdst : path_str dst <> f)
    by (apply Hop; right; left; reflexivity).
  assert (Hvf : join "," (vf_chain sc deint ef burn) <> f).
  { apply Hop. unfold operands. rewrite !in_app_iff. cbn [In]. tauto. }
  assert (H1 : ~ In f (head_args ow src)).
  { unfold head_args. cbn [In codec_flags] in Hf.
    destruct ow; cbn [In]; intros H; intuition (subst; discriminate). }
  assert (H2 : ~ In f (subs_args cs ns)).
  { unfold subs_args. cbn [In codec_flags] in Hf.
    destruct ns, cs; cbn [In]; intros H; intuition (subst; discriminate). }
  assert (H5 : ~ In f (container_flags dst)).
  { unfold container_flags, default_container_flags. cbv zeta.
    cbn [In codec_flags] in Hf.
    destruct (in_set _ _); cbn [In app]; intros H;
      intuition (subst; discriminate). }
  destruct (String.eqb_spec md "remux") as [-> | Hmd].
  - exfalso. rewrite build_remux_eq in Hin.
    rewrite !in_app_iff in Hin. cbn [In] in Hin.
    cbn [In codec_flags] in Hf.
    intuition (subst; try discriminate; congruence).
  - split; [assumption |].
    rewrite build_transcode_eq in Hin by assumption.
    assert (H4 : ~ In f (vf_args (vf_chain sc deint ef burn))).
    { unfold vf_args. destruct (vf_chain sc deint ef burn) eqn:Evf.
      - intros [].
      - cbn [In]. intros [E | [E | []]]; [| contradiction].
        subst f. cbn [In codec_flags] in Hf. intuition discriminate. }
    assert (H6 : ~ In f (threads_args th)).
    { unfold threads_args. destruct th as [n |]; [| intros []].
      destruct (n =? 0)%Z; [intros [] |].
      cbn [In]. intros [E | [E | []]].
      - subst f. cbn [In codec_flags] in Hf. intuition discriminate.
      - exact (str_int_not_codec_flag n f Hf E). }
    rewrite !in_app_iff in Hin. cbn [In] in Hin.
    intuition congruence.
Qed.

(** With no video codec no [-c:v] is written, and with no audio codec no
    [-c:a], in either mode. *)
Lemma no_codec_no_selector :
  (truthy vc = false ->
   ~ In "-c:v"
       (build_ffmpeg_cmd src dst md vc ac cr pr vb mr bs ab sc deint ef
          cs ns burn th ow))
  /\ (truthy ac = false ->
      ~ In "-c:a"
          (build_ffmpeg_cmd src dst md vc ac cr pr vb mr bs ab sc deint ef
             cs ns burn th ow)).
Proof.
  assert (Hop : forall o f, In o (operands src dst vc ac cr pr vb mr bs ab sc
                                   deint ef burn) ->
                            In f codec_flags -> o <> f).
  { intros o f Ho Hf. exact (clear_of_spec _ _ Hclear o f Ho Hf). }
  split; intros Hno Hin.
  - apply codec_flag_only_in_codec_blocks in Hin;
      [| cbn [In codec_flags]; tauto].
    destruct Hin as [_ [H | H]].
    + unfold video_args in H. rewrite Hno in H. destruct H.
    + apply audio_args_vocab in H. destruct H as [H | H].
      * cbn [In] in H. intuition discriminate.
      * apply (Hop "-c:v" "-c:v"); [| cbn [In codec_flags]; tauto
                                     | reflexivity].
        unfold operands. rewrite !in_app_iff in *. tauto.
  - apply codec_flag_only_in_codec_blocks in Hin;
      [| cbn [In codec_flags]; tauto].
    destruct Hin as [_ [H | H]].
    + apply video_args_vocab in H. destruct H as [H | H].
      * cbn [In] in H. intuition discriminate.
      * apply (Hop "-c:a" "-c:a"); [| cbn [In codec_flags]; tauto
                                     | reflexivity].
        unfold operands. rewrite !in_app_iff in *. tauto.
    + unfold audio_args in H. rewrite Hno in H. destruct H.
Qed.

End CodecSelectors.

(** C1 (as amended).  With quality "custom" the mode is the value of
    [--mode] and the codecs, CRF, preset and audio bitrate reach the
    builder exactly as the user gave them.  A codec left unspecified stays
    unspecified: no container default is substituted, and the command
    then carries no [-c:v] (resp. [-c:a]) selector.  (For the last part no
    path or option value may itself be spelled -c:v or -c:a.) *)
Theorem custom_passes_user_values_through
  (args : Args) (out_ext : string) (src dst : Path)
  (probed_v probed_a : option string) :
  quality args = QCustom ->
  clear_of codec_flags
    (operands src dst (vcodec args) (acodec args) (crf args) (preset args)
       (video_bitrate args) (maxrate args) (bufsize args)
       (audio_bitrate args) (scale args) (deinterlace args) (filters args)
       (burn_subs args)) = true ->
  main_policy args out_ext probed_v probed_a
  = {| effective_mode := mode args;
       vcodec_use := vcodec args;
       acodec_use := acodec args;
       crf_use := crf args;
       preset_use := preset args;
       abr_use := audio_bitrate args |}
  /\ main_cmd args out_ext src dst probed_v probed_a
     = build_ffmpeg_cmd src dst (mode args)
         (vcodec args) (acodec args) (crf args) (preset args)
         (video_bitrate args) (maxrate args) (bufsize args)
         (audio_bitrate args) (scale args) (deinterlace args) (filters args)
         (copy_subs args) (no_subs args) (burn_subs args) (threads args)
         (overwrite args)
  /\ (truthy (vcodec args) = false ->
      ~ In "-c:v" (main_cmd args out_ext src dst probed_v probed_a))
  /\ (truthy (acodec args) = false ->
      ~ In "-c:a" (main_cmd args out_ext src dst probed_v probed_a)).
Proof.
  intros Hq Hclear.
  assert (Hp : main_policy args out_ext probed_v probed_a
               = {| effective_mode := mode args;
                    vcodec_use := vcodec args;
                    acodec_use := acodec args;
                    crf_use := crf args;
                    preset_use := preset args;
                    abr_use := audio_bitrate args |}).
  { unfold main_policy. now rewrite Hq. }
  split; [exact Hp |].
  unfold main_cmd. rewrite Hp.
  cbn [effective_mode vcodec_use acodec_use crf_use preset_use abr_use].
  split; [reflexivity |].
  exact (no_codec_no_selector src dst (mode args)
           (vcodec args) (acodec args) (crf args) (preset args)
           (video_bitrate args) (maxrate args) (bufsize args)
           (audio_bitrate args) (scale args) (deinterlace args)
           (filters args) (copy_subs args) (no_subs args) (burn_subs args)
           (threads args) (overwrite args) Hclear).
Qed.

(** C3.  With quality "auto": when the compatibility table accepts the
    probed codecs for the target container the mode is "remux"; otherwise
    the mode is "transcode" and each of CRF, preset, audio bitrate, video
    codec and audio codec is the user's value if given, else 20, "fast",
    192k and the container's default codecs.  For probed h264/aac and
    target webm the table answers false and, with no overrides, the policy
    is transcode, libvpx-vp9, libopus, 20, fast, 192k. *)
Theorem auto_remux_or_transcode_defaults
  (args : Args) (out_ext : string) (probed_v probed_a : option string) :
  quality args = QAuto ->
  (container_allows_codecs out_ext probed_v probed_a = true ->
   effective_mode (main_policy args out_ext probed_v probed_a) = "remux")
  /\ (container_allows_codecs out_ext probed_v probed_a = false ->
      main_policy args out_ext probed_v probed_a
      = {| effective_mode := "transcode";
           vcodec_use :=
             por (vcodec args) (dict_get VCODEC_DEFAULTS out_ext "libx264");
           acodec_use :=
             por (acodec args) (dict_get ACODEC_DEFAULTS out_ext "aac");
           crf_use := por (crf args) "20";
           preset_use := por (preset args) "fast";
           abr_use := por (audio_bitrate args) "192k" |})
  /\ container_allows_codecs "webm" (Some "h264") (Some "aac") = false
  /\ (truthy (vcodec args) = false -> truthy (acodec args) = false ->
      truthy (crf args) = false -> truthy (preset args) = false ->
      truthy (audio_bitrate args) = false ->
      main_policy args "webm" (Some "h264") (Some "aac")
      = {| effective_mode := "transcode";
           vcodec_use := Some "libvpx-vp9";
           acodec_use := Some "libopus";
           crf_use := Some "20";
           preset_use := Some "fast";
           abr_use := Some "192k" |}).
Proof.
  intros Hq.
  assert (Hweb : container_allows_codecs "webm" (Some "h264") (Some "aac")
                 = false).
  { unfold container_allows_codecs. cbv zeta. cbn [or_empty].
    rewrite (lower_literal "webm" eq_refl eq_refl),
      (lower_literal "h264" eq_refl eq_refl),
      (lower_literal "aac" eq_refl eq_refl).
    reflexivity. }
  unfold main_policy. rewrite Hq.
  split; [| split; [| split]].
  - now intros ->.
  - now intros ->.
  - exact Hweb.
  - intros Hv Ha Hc Hp Hb. rewrite Hweb.
    rewrite !por_unset by assumption. reflexivity.
Qed.

(** C5.  With quality "ultra" and no CRF, preset or audio bitrate given,
    the resolved triple is (18, "slow", "320k").  Each of the three is
    resolved from its own option alone, so an explicit CRF replaces the 18
    and leaves "slow" and "320k" in place. *)
Theorem ultra_triple_and_independent_overrides
  (args : Args) (out_ext : string) (probed_v probed_a : option string) :
  quality args = QUltra ->
  (truthy (crf args) = false -> truthy (preset args) = false ->
   truthy (audio_bitrate args) = false ->
   (crf_use (main_policy args out_ext probed_v probed_a),
    preset_use (main_policy args out_ext probed_v probed_a),
    abr_use (main_policy args out_ext probed_v probed_a))
   = (Some "18", Some "slow", Some "320k"))
  /\ (forall c : string,
        c <> "" -> crf args = Some c ->
        truthy (preset args) = false -> truthy (audio_bitrate args) = false ->
        (crf_use (main_policy args out_ext probed_v probed_a),
         preset_use (main_policy args out_ext probed_v probed_a),
         abr_use (main_policy args out_ext probed_v probed_a))
        = (Some c, Some "slow", Some "320k"))
  /\ crf_use (main_policy args out_ext probed_v probed_a)
     = por (crf args) "18"
  /\ preset_use (main_policy args out_ext probed_v probed_a)
     = por (preset args) "slow"
  /\ abr_use (main_policy args out_ext probed_v probed_a)
     = por (audio_bitrate args) "320k".
Proof.
  intros Hq. unfold main_policy. rewrite Hq.
  cbn [crf_use preset_use abr_use].
  split; [| split; [| repeat split]].
  - intros Hc Hp Hb. now rewrite !por_unset by assumption.
  - intros c Hc Ec Hp Hb. rewrite Ec, por_set by assumption.
    now rewrite !por_unset by assumption.
Qed.

(** ** The video filter chain *)

Lemma append_empty_r (s : string) : (s ++ "")%string = s.
Proof.
  induction s as [| c s IH]; [reflexivity | cbn; now rewrite IH].
Qed.

Lemma append_assoc (a b c : string) :
  ((a ++ b) ++ c)%string = (a ++ (b ++ c))%string.
Proof.
  induction a as [| x a IH]; [reflexivity | cbn; now rewrite IH].
Qed.

Lemma replace_char_app (old : ascii) (new a b : string) :
  replace_char old new (a ++ b)%string
  = (replace_char old new a ++ replace_char old new b)%string.
Proof.
  induction a as [| x a IH]; [reflexivity |].
  cbn [String.append replace_char]. now rewrite IH, append_assoc.
Qed.

(** The two successive [replace] calls amount to one pass that rewrites
    each character on its own. *)
Lemma subs_path_escape (p : Path) :
  subs_path p = escape_path (path_str p).
Proof.
  unfold subs_path. induction (path_str p) as [| c s IH]; [reflexivity |].
  cbn [replace_char escape_path]. rewrite replace_char_app, IH. f_equal.
  unfold escape_char. destruct (Ascii.eqb c backslash) eqn:Eb.
  - reflexivity.
  - cbn [replace_char]. now rewrite append_empty_r.
Qed.

Lemma escape_path_app (a b : string) :
  escape_path (a ++ b)%string = (escape_path a ++ escape_path b)%string.
Proof.
  induction a as [| x a IH]; [reflexivity |].
  cbn [String.append escape_path]. now rewrite IH, append_assoc.
Qed.

(** C7.  The filter chain is the list yadif, scale=..., user filters,
    subtitles='...' in that order, with the entries whose option is not set
    left out; the path inside the subtitles filter is the burn-subs path
    with each backslash doubled and each colon preceded by a backslash
    (every other character unchanged); and in transcode mode a non-empty
    chain is emitted as [-vf] followed by the entries joined by commas. *)
Theorem filter_chain_order_and_escaping
  (src dst : Path) (md : string)
  (vc ac cr pr vb mr bs ab sc : option string)
  (deint : bool) (ef : option string) (cs ns : bool) (burn : option Path)
  (th : option Z) (ow : bool) :
  vf_chain sc deint ef burn
  = present
      ([(deint, "yadif");
        (truthy sc, ("scale=" ++ or_empty sc)%string);
        (truthy ef, or_empty ef)]
       ++ match burn with
          | Some p =>
              [(true,
                ("subtitles='" ++ escape_path (path_str p) ++ "'")%string)]
          | None => []
          end)
  /\ (forall a b : string,
        escape_path (a ++ b)%string
        = (escape_path a ++ escape_path b)%string)
  /\ (forall c : ascii,
        escape_path (String c "")
        = if Ascii.eqb c backslash then String backslash (String backslash "")
          else if Ascii.eqb c ":" then String backslash ":"
          else String c "")
  /\ (md <> "remux" -> vf_chain sc deint ef burn <> [] ->
      has_run ["-vf"; join "," (vf_chain sc deint ef burn)]
        (build_ffmpeg_cmd src dst md vc ac cr pr vb mr bs ab sc deint ef
           cs ns burn th ow)).
Proof.
  split; [| split; [| split]].
  - unfold vf_chain, present. cbv zeta.
    destruct deint, (truthy sc), (truthy ef), burn as [p |];
      cbn [app filter map fst snd]; rewrite ?subs_path_escape; reflexivity.
  - apply escape_path_app.
  - intros c. cbn [escape_path]. rewrite append_empty_r. reflexivity.
  - intros Hmd Hvf. rewrite build_transcode_eq by assumption.
    exists (head_args ow src ++ subs_args cs ns
              ++ video_args vc cr pr vb mr bs ++ audio_args ac ab),
           (container_flags dst ++ threads_args th ++ [path_str dst]).
    unfold vf_args. destruct (vf_chain sc deint ef burn) as [| x l];
      [contradiction |].
    rewrite <- !app_assoc. reflexivity.
Qed.

(** * Further properties of the code *)

(** ** More on the compatibility table *)

Lemma table_rejects_missing_video
  (container : string) (vcodec acodec : option string) :
  truthy vcodec = false ->
  in_set (lower container) ["mkv"] = false ->
  container_allows_codecs container vcodec acodec = false.
Proof.
  intros Hv Hc.
  assert (Ev : lower (or_empty vcodec) = "").
  { destruct vcodec as [s |]; [| apply lower_empty].
    cbn [truthy] in Hv. apply negb_false_iff, String.eqb_eq in Hv.
    subst s. apply lower_empty. }
  unfold container_allows_codecs. cbv zeta. rewrite Hc, Ev.
  destruct (in_set (lower container) ["mp4"; "m4v"; "mov"]);
    [reflexivity |].
  destruct (in_set (lower container) ["webm"]); [reflexivity |].
  destruct (in_set (lower container) ["mpg"; "mpeg"; "ts"; "m2ts"]);
    [reflexivity |].
  destruct (in_set (lower container) ["avi"]); reflexivity.
Qed.

(** X1.  A file without a video stream (the probe gives [None] or an empty
    name) is compatible with no container but mkv: for every other
    container name and every audio codec the table answers false. *)
Theorem no_video_codec_only_fits_mkv
  (container : string) (vcodec acodec : option string) :
  truthy vcodec = false ->
  ~ In (lower container) matroska_family ->
  container_allows_codecs container vcodec acodec = false.
Proof.
  intros Hv Hc. apply table_rejects_missing_video; [assumption |].
  now apply in_set_not_In.
Qed.

(** X2.  The table ignores letter case in all three arguments, and it
    treats an empty codec name like a missing one. *)
Theorem container_allows_codecs_case_insensitive
  (container : string) (vcodec acodec : option string) :
  container_allows_codecs (lower container)
    (option_map lower vcodec) (option_map lower acodec)
  = container_allows_codecs container vcodec acodec
  /\ container_allows_codecs container (Some "") acodec
     = container_allows_codecs container None acodec
  /\ container_allows_codecs container vcodec (Some "")
     = container_allows_codecs container vcodec None.
Proof.
  split; [| split; reflexivity].
  unfold container_allows_codecs. cbv zeta.
  assert (E : forall o, lower (or_empty (option_map lower o))
                        = lower (or_empty o)).
  { intros [s |]; [apply lower_idem | reflexivity]. }
  now rewrite lower_idem, !E.
Qed.

(** ** The default codec tables *)

(** X3.  Whatever the target container, the default video codec is
    libvpx-vp9 for webm and libx264 otherwise, and the default audio codec
    is libopus for webm and aac otherwise; containers missing from the
    tables (mov, m4v, mpeg, m2ts, unknown ones) get libx264 and aac. *)
Theorem codec_defaults_by_container (out_ext : string) :
  dict_get VCODEC_DEFAULTS out_ext "libx264"
  = (if out_ext =? "webm" then "libvpx-vp9" else "libx264")
  /\ dict_get ACODEC_DEFAULTS out_ext "aac"
     = (if out_ext =? "webm" then "libopus" else "aac").
Proof.
  unfold VCODEC_DEFAULTS, ACODEC_DEFAULTS. cbn [dict_get].
  rewrite !(String.eqb_sym _ out_ext).
  destruct (out_ext =? "mp4") eqn:E1.
  { apply String.eqb_eq in E1. subst. split; reflexivity. }
  destruct (out_ext =? "mkv") eqn:E2.
  { apply String.eqb_eq in E2. subst. split; reflexivity. }
  destruct (out_ext =? "webm") eqn:E3; [split; reflexivity |].
  destruct (out_ext =? "avi"), (out_ext =? "ts"), (out_ext =? "mpg");
    split; reflexivity.
Qed.

(** ** More on the command builder *)

Section BuilderShape.

Variables (src dst : Path) (md : string).
Variables (vc ac cr pr vb mr bs ab sc : option string).
Variable (deint : bool) (ef : option string).
Variables (cs ns : bool) (burn : option Path).
Variable (th : option Z) (ow : bool).

(** Both modes at once. *)
Lemma build_eq :
  build_ffmpeg_cmd src dst md vc ac cr pr vb mr bs ab sc deint ef
    cs ns burn th ow
  = head_args ow src ++ subs_args cs ns
      ++ body_args md dst vc ac cr pr vb mr bs ab sc deint ef burn th
      ++ [path_str dst].
Proof.
  unfold body_args. destruct (md =? "remux") eqn:E.
  - apply String.eqb_eq in E. subst md. rewrite build_remux_eq.
    now rewrite <- !app_assoc.
  - apply String.eqb_neq in E. rewrite build_transcode_eq by assumption.
    now rewrite <- !app_assoc.
Qed.

End BuilderShape.

(** X4.  In every mode and for all parameters the argument list starts
    with ffmpeg -hide_banner -loglevel info, then -y when overwriting and
    -n otherwise, then -i and the source path; and its last element is the
    destination path. *)
Theorem command_frame
  (src dst : Path) (md : string)
  (vc ac cr pr vb mr bs ab sc : option string)
  (deint : bool) (ef : option string) (cs ns : bool) (burn : option Path)
  (th : option Z) (ow : bool) :
  firstn 7
    (build_ffmpeg_cmd src dst md vc ac cr pr vb mr bs ab sc deint ef
       cs ns burn th ow)
  = ["ffmpeg"; "-hide_banner"; "-loglevel"; "info";
     if ow then "-y" else "-n"; "-i"; path_str src]
  /\ last
       (build_ffmpeg_cmd src dst md vc ac cr pr vb mr bs ab sc deint ef
          cs ns burn th ow) ""
     = path_str dst.
Proof.
  rewrite build_eq. split.
  - reflexivity.
  - rewrite !app_assoc. apply last_last.
Qed.

(** X5.  Only the exact string "remux" selects the remux branch: every
    other mode, "auto" and "transcode" included, builds the same list. *)
Theorem non_remux_modes_build_alike
  (src dst : Path) (md : string)
  (vc ac cr pr vb mr bs ab sc : option string)
  (deint : bool) (ef : option string) (cs ns : bool) (burn : option Path)
  (th : option Z) (ow : bool) :
  md <> "remux" ->
  build_ffmpeg_cmd src dst md vc ac cr pr vb mr bs ab sc deint ef
    cs ns burn th ow
  = build_ffmpeg_cmd src dst "transcode" vc ac cr pr vb mr bs ab sc deint ef
      cs ns burn th ow.
Proof.
  intros H. rewrite !build_transcode_eq by (assumption || discriminate).
  reflexivity.
Qed.

(** X6.  In remux mode the list depends on the two paths, the subtitle
    switches and the overwrite switch only: codecs, CRF, preset, bitrates,
    filters and the thread count are all ignored, and [-threads] is never
    written when remuxing (the string occurs only where a path is spelled
    that way). *)
Theorem remux_ignores_encoding_and_threads
  (src dst : Path)
  (vc ac cr pr vb mr bs ab sc : option string)
  (deint : bool) (ef : option string) (cs ns : bool) (burn : option Path)
  (th : option Z) (ow : bool)
  (vc' ac' cr' pr' vb' mr' bs' ab' sc' : option string)
  (deint' : bool) (ef' : option string) (burn' : option Path)
  (th' : option Z) :
  build_ffmpeg_cmd src dst "remux" vc ac cr pr vb mr bs ab sc deint ef
    cs ns burn th ow
  = build_ffmpeg_cmd src dst "remux" vc' ac' cr' pr' vb' mr' bs' ab' sc'
      deint' ef' cs ns burn' th' ow
  /\ count_occ string_dec
       (build_ffmpeg_cmd src dst "remux" vc ac cr pr vb mr bs ab sc deint ef
          cs ns burn th ow) "-threads"
     = count_occ string_dec [path_str src; path_str dst] "-threads".
Proof.
  split.
  - rewrite !build_remux_eq. reflexivity.
  - apply remux_count. cbn [In]. intuition discriminate.
Qed.

(** X7.  [no_subs] wins over [copy_subs]: with [no_subs] set the list is
    the same whether or not [copy_subs] is set, and the argument after the
    source path is -sn; with only [copy_subs] set the two arguments after
    the source path are -c:s copy.  This holds in every mode. *)
Theorem subtitle_switch_precedence
  (src dst : Path) (md : string)
  (vc ac cr pr vb mr bs ab sc : option string)
  (deint : bool) (ef : option string) (cs : bool) (burn : option Path)
  (th : option Z) (ow : bool) :
  build_ffmpeg_cmd src dst md vc ac cr pr vb mr bs ab sc deint ef
    cs true burn th ow
  = build_ffmpeg_cmd src dst md vc ac cr pr vb mr bs ab sc deint ef
      false true burn th ow
  /\ nth_error
       (build_ffmpeg_cmd src dst md vc ac cr pr vb mr bs ab sc deint ef
          cs true burn th ow) 7
     = Some "-sn"
  /\ firstn 2 (skipn 7
       (build_ffmpeg_cmd src dst md vc ac cr pr vb mr bs ab sc deint ef
          true false burn th ow))
     = ["-c:s"; "copy"].
Proof.
  rewrite !build_eq. repeat split; reflexivity.
Qed.

(** X8.  With the audio codec "copy" the audio bitrate is ignored: the
    list is the same as with no audio bitrate at all, in every mode. *)
Theorem audio_copy_ignores_bitrate
  (src dst : Path) (md : string)
  (vc cr pr vb mr bs ab sc : option string)
  (deint : bool) (ef : option string) (cs ns : bool) (burn : option Path)
  (th : option Z) (ow : bool) :
  build_ffmpeg_cmd src dst md vc (Some "copy") cr pr vb mr bs ab sc deint ef
    cs ns burn th ow
  = build_ffmpeg_cmd src dst md vc (Some "copy") cr pr vb mr bs None sc
      deint ef cs ns burn th ow.
Proof.
  rewrite !build_eq. unfold body_args, audio_args.
  cbn [truthy or_empty in_set existsb String.eqb Ascii.eqb Bool.eqb negb
       orb andb].
  rewrite andb_false_r. reflexivity.
Qed.

(** X9.  A thread count of 0 is treated like a missing one: no [-threads]
    is written. *)
Theorem zero_threads_is_no_threads
  (src dst : Path) (md : string)
  (vc ac cr pr vb mr bs ab sc : option string)
  (deint : bool) (ef : option string) (cs ns : bool) (burn : option Path)
  (ow : bool) :
  build_ffmpeg_cmd src dst md vc ac cr pr vb mr bs ab sc deint ef
    cs ns burn (Some 0%Z) ow
  = build_ffmpeg_cmd src dst md vc ac cr pr vb mr bs ab sc deint ef
      cs ns burn None ow.
Proof.
  rewrite !build_eq. reflexivity.
Qed.

(** X10.  In transcode mode [-crf] and [-b:v] are never both written:
    giving a video bitrate switches the CRF off, even for the encoders
    that take one.  (No path or option value may itself be spelled like a
    rate-control flag.) *)
Theorem crf_and_video_bitrate_exclusive
  (src dst : Path) (md : string)
  (vc ac cr pr vb mr bs ab sc : option string)
  (deint : bool) (ef : option string) (cs ns : bool) (burn : option Path)
  (th : option Z) (ow : bool) :
  md <> "remux" ->
  clear_of video_flags
    (operands src dst vc ac cr pr vb mr bs ab sc deint ef burn) = true ->
  ~ (In "-crf"
       (build_ffmpeg_cmd src dst md vc ac cr pr vb mr bs ab sc deint ef
          cs ns burn th ow)
     /\ In "-b:v"
          (build_ffmpeg_cmd src dst md vc ac cr pr vb mr bs ab sc deint ef
             cs ns burn th ow)).
Proof.
  intros Hmd Hclear [Hcrf Hbv].
  pose proof (video_flag_only_in_video_args src dst md vc ac cr pr vb mr bs
                ab sc deint ef cs ns burn th ow Hmd Hclear) as Hloc.
  assert (Hne : forall (o : option string) (f : string),
             In o [vc; cr; pr; vb; mr; bs] -> In f video_flags ->
             truthy o = true -> or_empty o <> f).
  { intros o f Ho Hf Ht.
    apply (value_neq src dst vc ac cr pr vb mr bs ab sc deint ef burn Hclear);
      [| assumption | assumption].
    cbn [In] in *. tauto. }
  destruct (video_args_flags vc cr pr vb mr bs Hne) as (Fcrf & _ & Fbv & _).
  apply (Hloc "-crf" ltac:(cbn [In video_flags]; tauto)), Fcrf in Hcrf.
  apply (Hloc "-b:v" ltac:(cbn [In video_flags]; tauto)), Fbv in Hbv.
  destruct Hcrf as (_ & H0 & _). destruct Hbv as (H1 & _). congruence.
Qed.

(** X11.  The finalization flags follow the suffix of the destination
    path, in every mode: when that suffix, without its dots and in any
    letter case, is mp4, m4v or mov, the list contains
    -movflags +faststart -pix_fmt yuv420p (also when remuxing). *)
Theorem mp4_family_destination_gets_faststart
  (src dst : Path) (md : string)
  (vc ac cr pr vb mr bs ab sc : option string)
  (deint : bool) (ef : option string) (cs ns : bool) (burn : option Path)
  (th : option Z) (ow : bool) :
  In (lower (lstrip_dot (path_suffix dst))) mp4_family ->
  has_run ["-movflags"; "+faststart"; "-pix_fmt"; "yuv420p"]
    (build_ffmpeg_cmd src dst md vc ac cr pr vb mr bs ab sc deint ef
       cs ns burn th ow).
Proof.
  intros H. apply in_set_In in H.
  assert (E : container_flags dst
              = ["-movflags"; "+faststart"; "-pix_fmt"; "yuv420p"]).
  { unfold container_flags, default_container_flags. cbv zeta.
    rewrite lower_idem. unfold mp4_family in H. now rewrite H. }
  rewrite build_eq. unfold body_args. rewrite E.
  destruct (md =? "remux").
  - exists (head_args ow src ++ subs_args cs ns ++ ["-c"; "copy"]),
           [path_str dst].
    now rewrite <- !app_assoc.
  - exists (head_args ow src ++ subs_args cs ns
              ++ video_args vc cr pr vb mr bs ++ audio_args ac ab
              ++ vf_args (vf_chain sc deint ef burn)),
           (threads_args th ++ [path_str dst]).
    now rewrite <- !app_assoc.
Qed.

(** ** More on the subtitle path escaping *)

Lemma unescape_escape (s : string) :
  unescape_path (escape_path s) = s.
Proof.
  induction s as [| c s IH]; [reflexivity |].
  cbn [escape_path]. unfold escape_char.
  destruct (Ascii.eqb c backslash) eqn:Eb.
  - apply Ascii.eqb_eq in Eb. subst c.
    cbn [String.append unescape_path]. cbn. now rewrite IH.
  - destruct (Ascii.eqb c ":") eqn:Ec.
    + apply Ascii.eqb_eq in Ec. subst c.
      cbn [String.append unescape_path]. cbn. now rewrite IH.
    + cbn [String.append unescape_path]. now rewrite Eb, IH.
Qed.

(** X12.  The escaping of the burn-subs path loses nothing: reading the
    escaped text back (a backslash gives the character after it) returns
    the path, so two different paths never escape to the same text. *)
Theorem subs_path_injective (p q : Path) :
  unescape_path (subs_path p) = path_str p
  /\ (subs_path p = subs_path q -> path_str p = path_str q).
Proof.
  split.
  - rewrite subs_path_escape. apply unescape_escape.
  - intros H. rewrite !subs_path_escape in H.
    apply (f_equal unescape_path) in H.
    now rewrite !unescape_escape in H.
Qed.

Lemma escape_colon_guarded (s pre post : string) :
  escape_path s = (pre ++ String ":" post)%string ->
  exists pre', pre = (pre' ++ String backslash "")%string.
Proof.
  revert pre. induction s as [| c s IH]; intros pre H.
  - destruct pre; discriminate H.
  - cbn [escape_path] in H. unfold escape_char in H.
    destruct (Ascii.eqb c backslash) eqn:Eb;
      [| destruct (Ascii.eqb c ":") eqn:Ec].
    + destruct pre as [| a pre1]; cbn [String.append] in H;
        [inversion H |].
      injection H as Ha H. destruct pre1 as [| a2 pre2];
        cbn [String.append] in H; [inversion H |].
      injection H as Ha2 H. apply IH in H. destruct H as [p' ->].
      exists (String a (String a2 p')). reflexivity.
    + destruct pre as [| a pre1]; cbn [String.append] in H;
        [inversion H |].
      injection H as Ha H. destruct pre1 as [| a2 pre2];
        cbn [String.append] in H.
      * exists "". now subst a.
      * injection H as Ha2 H. apply IH in H. destruct H as [p' ->].
        exists (String a (String a2 p')). reflexivity.
    + destruct pre as [| a pre1]; cbn [String.append] in H.
      * injection H as Hc _. subst c. discriminate Ec.
      * injection H as Ha H. apply IH in H. destruct H as [p' ->].
        exists (String a p'). reflexivity.
Qed.

(** X13.  In the escaped burn-subs path no colon stands bare: wherever a
    colon occurs, the character just before it is a backslash. *)
Theorem subs_path_colons_are_escaped (p : Path) (pre post : string) :
  subs_path p = (pre ++ String ":" post)%string ->
  exists pre', pre = (pre' ++ String backslash "")%string.
Proof.
  rewrite subs_path_escape. apply escape_colon_guarded.
Qed.

(** X14.  A burn-subs path with no backslash and no colon, such as an
    ordinary POSIX path, is passed to the subtitles filter unchanged. *)
Theorem subs_path_plain_unchanged (p : Path) :
  contains_char backslash (path_str p) = false ->
  contains_char ":" (path_str p) = false ->
  subs_path p = path_str p.
Proof.
  rewrite subs_path_escape.
  induction (path_str p) as [| c s IH]; intros Hb Hc; [reflexivity |].
  cbn [contains_char] in Hb, Hc.
  apply orb_false_iff in Hb. apply orb_false_iff in Hc.
  destruct Hb as [Eb Hb], Hc as [Ec Hc].
  cbn [escape_path]. unfold escape_char. rewrite Eb, Ec.
  cbn [String.append]. now rewrite IH.
Qed.

(** ** More on the policy *)

Lemma truthy_por (o : option string) (d : string) :
  d <> "" -> truthy (por o d) = true.
Proof.
  intros Hd. unfold por. destruct (truthy o) eqn:E; [exact E |].
  cbn [truthy]. apply String.eqb_neq in Hd. now rewrite Hd.
Qed.

Lemma default_codecs_nonempty (out_ext : string) :
  dict_get VCODEC_DEFAULTS out_ext "libx264" <> ""
  /\ dict_get ACODEC_DEFAULTS out_ext "aac" <> "".
Proof.
  unfold VCODEC_DEFAULTS, ACODEC_DEFAULTS. cbn [dict_get].
  destruct ("mp4" =? out_ext), ("mkv" =? out_ext), ("webm" =? out_ext),
    ("avi" =? out_ext), ("ts" =? out_ext), ("mpg" =? out_ext);
    split; discriminate.
Qed.

(** X15.  For every quality other than "custom" the chosen mode is
    "remux" or "transcode", never the raw [--mode] value; for ultra, high,
    balanced and fast it is "transcode" whatever the probe found, even
    when the codecs would fit the container; and whenever the mode is
    "transcode" all five resolved values (video codec, audio codec, CRF,
    preset, audio bitrate) are set and non-empty. *)
Theorem preset_policy_is_complete
  (args : Args) (out_ext : string) (probed_v probed_a : option string) :
  quality args <> QCustom ->
  (effective_mode (main_policy args out_ext probed_v probed_a) = "remux"
   \/ effective_mode (main_policy args out_ext probed_v probed_a)
      = "transcode")
  /\ (quality args <> QAuto ->
      effective_mode (main_policy args out_ext probed_v probed_a)
      = "transcode")
  /\ (effective_mode (main_policy args out_ext probed_v probed_a)
      = "transcode" ->
      truthy (vcodec_use (main_policy args out_ext probed_v probed_a)) = true
      /\ truthy (acodec_use (main_policy args out_ext probed_v probed_a))
         = true
      /\ truthy (crf_use (main_policy args out_ext probed_v probed_a)) = true
      /\ truthy (preset_use (main_policy args out_ext probed_v probed_a))
         = true
      /\ truthy (abr_use (main_policy args out_ext probed_v probed_a))
         = true).
Proof.
  intros Hq. destruct (default_codecs_nonempty out_ext) as [Hv Ha].
  unfold main_policy.
  destruct (quality args) eqn:Eq; try contradiction;
    try destruct (container_allows_codecs out_ext probed_v probed_a);
    cbn [effective_mode vcodec_use acodec_use crf_use preset_use abr_use];
    (split; [tauto |]); (split; [intros; congruence |]);
    intros Hm; try discriminate Hm;
    repeat split; apply truthy_por; solve [assumption | discriminate].
Qed.

(** X16.  With quality "auto" and codecs the table accepts, the command
    is the plain stream copy: the user's codec, CRF, preset, bitrate,
    filter and thread options have no effect on it. *)
Theorem auto_remux_ignores_user_encoding_options
  (args : Args) (out_ext : string) (src dst : Path)
  (probed_v probed_a : option string) :
  quality args = QAuto ->
  container_allows_codecs out_ext probed_v probed_a = true ->
  main_cmd args out_ext src dst probed_v probed_a
  = ["ffmpeg"; "-hide_banner"; "-loglevel"; "info";
     if overwrite args then "-y" else "-n"; "-i"; path_str src]
      ++ (if no_subs args then ["-sn"]
          else if copy_subs args then ["-c:s"; "copy"] else [])
      ++ ["-c"; "copy"]
      ++ default_container_flags (lower (lstrip_dot (path_suffix dst)))
      ++ [path_str dst].
Proof.
  intros Hq Hc. unfold main_cmd, main_policy. rewrite Hq, Hc.
  cbn [effective_mode]. rewrite build_remux_eq. reflexivity.
Qed.

(** X17.  With quality "auto", a file in which no video stream was found
    is never remuxed into a container other than mkv: the mode is
    "transcode" and a video codec is resolved all the same (the user's,
    else the container default). *)
Theorem auto_transcodes_files_without_video
  (args : Args) (out_ext : string) (probed_v probed_a : option string) :
  quality args = QAuto ->
  truthy probed_v = false ->
  ~ In (lower out_ext) matroska_family ->
  effective_mode (main_policy args out_ext probed_v probed_a) = "transcode"
  /\ vcodec_use (main_policy args out_ext probed_v probed_a)
     = por (vcodec args) (dict_get VCODEC_DEFAULTS out_ext "libx264").
Proof.
  intros Hq Hv Hc. apply in_set_not_In in Hc.
  unfold main_policy. rewrite Hq.
  rewrite (table_rejects_missing_video out_ext probed_v probed_a Hv Hc).
  split; reflexivity.
Qed.

(** ** The target extension *)


End Generic.

(** * The statements on sample inputs

    The sample inputs are ASCII text, on which [str.lower] is
    [fold_ascii]. *)

#[global] Existing Instance ascii_text.

Lemma mkv_allows_all_codecs_witness :
  container_allows_codecs "MKV" None (Some "pcm_s16le") = true
  /\ container_allows_codecs "mkv" None None = true.
Proof.
  split; apply mkv_allows_all_codecs; vm_compute; left; reflexivity.
Defined.

Lemma unknown_container_forces_transcode_witness :
  container_allows_codecs "flv" (Some "h264") (Some "aac") = false.
Proof.
  apply unknown_container_forces_transcode.
  vm_compute. intuition discriminate.
Defined.

(** C8, as stated, fails: "MKV" is none of the listed names, and the
    function, which lower-cases the container on entry, accepts it (here
    with codecs that no other container would take). *)
Lemma uppercase_mkv_is_accepted :
  ~ In "MKV" known_containers
  /\ container_allows_codecs "MKV" None None = true
  /\ container_allows_codecs "MKV" (Some "theora") (Some "flac") = true.
Proof.
  split; [| split; reflexivity].
  vm_compute. intuition discriminate.
Qed.

Lemma absent_audio_asymmetry_witness :
  (container_allows_codecs "MOV" (Some "HEVC") None = true
   /\ container_allows_codecs "MOV" (Some "HEVC") (Some "") = true)
  /\ (container_allows_codecs "avi" (Some "h264") None = false
      /\ container_allows_codecs "avi" (Some "h264") (Some "") = false).
Proof.
  split.
  - apply (proj1 (absent_audio_asymmetry "MOV" (Some "HEVC")));
      vm_compute; tauto.
  - apply (proj2 (absent_audio_asymmetry "avi" (Some "h264")));
      vm_compute; tauto.
Defined.

Lemma remux_emits_copy_and_no_encoding_flags_witness :
  count_occ string_dec
    (build_ffmpeg_cmd movie_mkv movie_mp4 "remux"
       (Some "libx264") (Some "aac") (Some "18") (Some "slow")
       (Some "5M") (Some "6M") (Some "10M") (Some "320k")
       (Some "1280:720") true (Some "hqdn3d") true false (Some subs_srt)
       (Some 4%Z) true) "-crf"
  = 0.
Proof.
  apply (proj2 (remux_emits_copy_and_no_encoding_flags movie_mkv movie_mp4
                  (Some "libx264") (Some "aac") (Some "18") (Some "slow")
                  (Some "5M") (Some "6M") (Some "10M") (Some "320k")
                  (Some "1280:720") true (Some "hqdn3d") true false
                  (Some subs_srt) (Some 4%Z) true) "-crf").
  cbn [In encoding_flags]. tauto.
Defined.

Lemma transcode_rate_control_flags_witness :
  (In "-crf"
     ["ffmpeg"; "-hide_banner"; "-loglevel"; "info"; "-n"; "-i";
      "/in/movie.mkv"; "-c:v"; "libx264"; "-crf"; "20"; "-preset"; "fast";
      "-maxrate"; "6M"; "-c:a"; "aac"; "-b:a"; "192k";
      "-movflags"; "+faststart"; "-pix_fmt"; "yuv420p"; "/in/movie.mp4"]
   /\ ~ In "-b:v"
        (build_ffmpeg_cmd movie_mkv movie_mp4 "transcode"
           (Some "libx264") (Some "aac") (Some "20") (Some "fast")
           None (Some "6M") None (Some "192k") None false None
           false false None None false))
  /\ (~ In "-crf"
         (build_ffmpeg_cmd movie_mkv movie_webm "transcode"
            (Some "libvpx-vp9") (Some "libopus") (Some "20") (Some "fast")
            None None None (Some "192k") None false None
            false false None None false)
      /\ ~ In "-preset"
           (build_ffmpeg_cmd movie_mkv movie_webm "transcode"
              (Some "libvpx-vp9") (Some "libopus") (Some "20") (Some "fast")
              None None None (Some "192k") None false None
              false false None None false)).
Proof.
  split.
  - pose proof
      (transcode_rate_control_flags movie_mkv movie_mp4 "transcode"
         (Some "libx264") (Some "aac") (Some "20") (Some "fast")
         None (Some "6M") None (Some "192k") None false None
         false false None None false _
         ltac:(discriminate) eq_refl eq_refl) as (Hcrf & _ & Hbv & _).
    split.
    + apply Hcrf. repeat split; reflexivity.
    + intros H. apply Hbv in H. destruct H as [H _]. discriminate H.
  - pose proof
      (transcode_rate_control_flags movie_mkv movie_webm "transcode"
         (Some "libvpx-vp9") (Some "libopus") (Some "20") (Some "fast")
         None None None (Some "192k") None false None
         false false None None false _
         ltac:(discriminate) eq_refl eq_refl) as (_ & _ & _ & _ & _ & Hvp9).
    apply Hvp9. reflexivity.
Defined.

(** C2, as stated, fails: with the webm default encoder libvpx-vp9 and the
    preset "fast" that quality "auto" resolves, the preset is provided and
    yet the transcode command carries no [-preset] (and the maxrate given
    here is emitted, so the video block did run). *)
Lemma preset_given_but_not_emitted :
  truthy (Some "fast") = true
  /\ build_ffmpeg_cmd movie_mkv movie_webm "transcode"
       (Some "libvpx-vp9") (Some "libopus") (Some "20") (Some "fast")
       None (Some "6M") None (Some "192k") None false None
       false false None None false
     = ["ffmpeg"; "-hide_banner"; "-loglevel"; "info"; "-n"; "-i";
        "/in/movie.mkv"; "-c:v"; "libvpx-vp9"; "-maxrate"; "6M";
        "-c:a"; "libopus"; "-b:a"; "192k"; "/in/movie.webm"]
  /\ ~ In "-preset"
       (build_ffmpeg_cmd movie_mkv movie_webm "transcode"
          (Some "libvpx-vp9") (Some "libopus") (Some "20") (Some "fast")
          None (Some "6M") None (Some "192k") None false None
          false false None None false).
Proof.
  split; [reflexivity |]. split; [reflexivity |].
  vm_compute. intuition discriminate.
Qed.

Lemma custom_passes_user_values_through_witness :
  main_policy (args_of QCustom "transcode") "webm" (Some "h264") (Some "aac")
  = {| effective_mode := "transcode";
       vcodec_use := None; acodec_use := None; crf_use := None;
       preset_use := None; abr_use := None |}
  /\ ~ In "-c:v"
        (main_cmd (args_of QCustom "transcode") "webm" movie_mkv movie_webm
           (Some "h264") (Some "aac"))
  /\ ~ In "-c:a"
        (main_cmd (args_of QCustom "transcode") "webm" movie_mkv movie_webm
           (Some "h264") (Some "aac")).
Proof.
  pose proof (custom_passes_user_values_through
                (args_of QCustom "transcode") "webm" movie_mkv movie_webm
                (Some "h264") (Some "aac") eq_refl eq_refl)
    as (Hp & _ & Hv & Ha).
  split; [exact Hp |].
  split; [exact (Hv eq_refl) | exact (Ha eq_refl)].
Defined.

(** C1, as stated, fails: quality "custom", target webm, no [--vcodec] and
    no [--acodec].  The resolved codecs stay [None] instead of the webm
    defaults libvpx-vp9 and libopus, and the command names no codec. *)
Lemma custom_has_no_codec_fallback :
  dict_get VCODEC_DEFAULTS "webm" "libx264" = "libvpx-vp9"
  /\ dict_get ACODEC_DEFAULTS "webm" "aac" = "libopus"
  /\ vcodec_use
       (main_policy (args_of QCustom "transcode") "webm"
          (Some "h264") (Some "aac")) = None
  /\ acodec_use
       (main_policy (args_of QCustom "transcode") "webm"
          (Some "h264") (Some "aac")) = None
  /\ vcodec_use
       (main_policy (args_of QCustom "transcode") "webm"
          (Some "h264") (Some "aac")) <> Some "libvpx-vp9"
  /\ main_cmd (args_of QCustom "transcode") "webm" movie_mkv movie_webm
       (Some "h264") (Some "aac")
     = ["ffmpeg"; "-hide_banner"; "-loglevel"; "info"; "-n"; "-i";
        "/in/movie.mkv"; "/in/movie.webm"].
Proof.
  repeat split; try reflexivity. discriminate.
Qed.

Lemma auto_remux_or_transcode_defaults_witness :
  effective_mode
    (main_policy (args_of QAuto "auto") "mp4" (Some "h264") (Some "aac"))
  = "remux"
  /\ main_policy (args_of QAuto "auto") "avi" (Some "vp9") (Some "opus")
     = {| effective_mode := "transcode";
          vcodec_use := Some "libx264";
          acodec_use := Some "aac";
          crf_use := Some "20";
          preset_use := Some "fast";
          abr_use := Some "192k" |}
  /\ main_policy (args_of QAuto "auto") "webm" (Some "h264") (Some "aac")
     = {| effective_mode := "transcode";
          vcodec_use := Some "libvpx-vp9";
          acodec_use := Some "libopus";
          crf_use := Some "20";
          preset_use := Some "fast";
          abr_use := Some "192k" |}.
Proof.
  split; [| split].
  - apply (proj1 (auto_remux_or_transcode_defaults
                    (args_of QAuto "auto") "mp4" (Some "h264") (Some "aac")
                    eq_refl)).
    reflexivity.
  - apply (proj1 (proj2 (auto_remux_or_transcode_defaults
                    (args_of QAuto "auto") "avi" (Some "vp9") (Some "opus")
                    eq_refl))).
    reflexivity.
  - apply (proj2 (proj2 (proj2 (auto_remux_or_transcode_defaults
                    (args_of QAuto "auto") "webm" (Some "h264") (Some "aac")
                    eq_refl)))); reflexivity.
Defined.

Lemma ultra_triple_and_independent_overrides_witness :
  (crf_use (main_policy (args_of QUltra "auto") "mp4" (Some "h264") (Some "aac")),
   preset_use (main_policy (args_of QUltra "auto") "mp4" (Some "h264") (Some "aac")),
   abr_use (main_policy (args_of QUltra "auto") "mp4" (Some "h264") (Some "aac")))
  = (Some "18", Some "slow", Some "320k")
  /\ (crf_use (main_policy (args_with_crf QUltra "auto" "16") "mp4" None None),
      preset_use (main_policy (args_with_crf QUltra "auto" "16") "mp4" None None),
      abr_use (main_policy (args_with_crf QUltra "auto" "16") "mp4" None None))
     = (Some "16", Some "slow", Some "320k").
Proof.
  split.
  - apply (proj1 (ultra_triple_and_independent_overrides
                    (args_of QUltra "auto") "mp4" (Some "h264") (Some "aac")
                    eq_refl)); reflexivity.
  - apply (proj1 (proj2 (ultra_triple_and_independent_overrides
                    (args_with_crf QUltra "auto" "16") "mp4" None None
                    eq_refl)) "16");
      [discriminate | reflexivity | reflexivity | reflexivity].
Defined.

Lemma filter_chain_order_and_escaping_witness :
  has_run
    ["-vf";
     ("yadif,scale=1280:720,hqdn3d,subtitles='"
        ++ String "C" (String backslash (String ":"
             (String backslash (String backslash
                (String "s" (String backslash (String backslash "a.srt")))))))
        ++ "'")%string]
    (build_ffmpeg_cmd movie_mkv movie_mp4 "transcode"
       (Some "libx264") (Some "aac") (Some "20") (Some "fast")
       None None None (Some "192k") (Some "1280:720") true (Some "hqdn3d")
       false false (Some subs_srt) None false).
Proof.
  apply (proj2 (proj2 (proj2
           (filter_chain_order_and_escaping movie_mkv movie_mp4 "transcode"
              (Some "libx264") (Some "aac") (Some "20") (Some "fast")
              None None None (Some "192k") (Some "1280:720") true
              (Some "hqdn3d") false false (Some subs_srt) None false))));
    vm_compute; discriminate.
Defined.

Lemma no_video_codec_only_fits_mkv_witness :
  container_allows_codecs "mp4" None (Some "aac") = false
  /\ container_allows_codecs "AVI" (Some "") (Some "mp3") = false.
Proof.
  split; apply no_video_codec_only_fits_mkv;
    solve [reflexivity | vm_compute; intuition discriminate].
Defined.

Lemma non_remux_modes_build_alike_witness :
  build_ffmpeg_cmd movie_mkv movie_mp4 "auto"
    (Some "libx264") None (Some "18") None None None None None
    None false None false false None None true
  = build_ffmpeg_cmd movie_mkv movie_mp4 "transcode"
      (Some "libx264") None (Some "18") None None None None None
      None false None false false None None true.
Proof.
  apply non_remux_modes_build_alike. discriminate.
Defined.

Lemma crf_and_video_bitrate_exclusive_witness :
  ~ (In "-crf"
       (build_ffmpeg_cmd movie_mkv movie_mp4 "transcode"
          (Some "libx264") (Some "aac") (Some "18") (Some "slow")
          (Some "5M") None None (Some "192k") None false None
          false false None None false)
     /\ In "-b:v"
          (build_ffmpeg_cmd movie_mkv movie_mp4 "transcode"
             (Some "libx264") (Some "aac") (Some "18") (Some "slow")
             (Some "5M") None None (Some "192k") None false None
             false false None None false)).
Proof.
  apply crf_and_video_bitrate_exclusive; [discriminate | reflexivity].
Defined.

Lemma mp4_family_destination_gets_faststart_witness :
  has_run ["-movflags"; "+faststart"; "-pix_fmt"; "yuv420p"]
    (build_ffmpeg_cmd movie_mkv (mkPath "/out/clip.MOV" ".MOV") "remux"
       None None None None None None None None None false None
       false false None None false).
Proof.
  apply mp4_family_destination_gets_faststart. vm_compute. tauto.
Defined.

Lemma subs_path_injective_witness :
  unescape_path (subs_path subs_srt) = path_str subs_srt
  /\ path_str subs_srt = path_str subs_srt.
Proof.
  split.
  - exact (proj1 (subs_path_injective subs_srt subs_srt)).
  - exact (proj2 (subs_path_injective subs_srt subs_srt) eq_refl).
Defined.

Lemma subs_path_colons_are_escaped_witness :
  exists pre', String "C" (String backslash "")
               = (pre' ++ String backslash "")%string.
Proof.
  apply (subs_path_colons_are_escaped subs_srt
           (String "C" (String backslash ""))
           (String backslash (String backslash
              (String "s" (String backslash (String backslash "a.srt")))))).
  reflexivity.
Defined.

Lemma subs_path_plain_unchanged_witness :
  subs_path (mkPath "/home/me/subs/film.srt" ".srt")
  = "/home/me/subs/film.srt".
Proof.
  apply (subs_path_plain_unchanged (mkPath "/home/me/subs/film.srt" ".srt"));
    reflexivity.
Defined.

Lemma preset_policy_is_complete_witness :
  effective_mode
    (main_policy (args_of QHigh "remux") "mp4" (Some "h264") (Some "aac"))
  = "transcode"
  /\ truthy (vcodec_use
       (main_policy (args_of QHigh "remux") "mp4" (Some "h264") (Some "aac")))
     = true.
Proof.
  pose proof (preset_policy_is_complete (args_of QHigh "remux") "mp4"
                (Some "h264") (Some "aac") ltac:(discriminate))
    as (_ & Hm & Hv).
  split.
  - apply Hm. discriminate.
  - apply Hv. reflexivity.
Defined.

Lemma auto_remux_ignores_user_encoding_options_witness :
  main_cmd (args_with_crf QAuto "transcode" "16") "mp4" movie_mkv movie_mp4
    (Some "h264") (Some "aac")
  = ["ffmpeg"; "-hide_banner"; "-loglevel"; "info"; "-n"; "-i";
     "/in/movie.mkv"; "-c"; "copy";
     "-movflags"; "+faststart"; "-pix_fmt"; "yuv420p"; "/in/movie.mp4"].
Proof.
  exact (auto_remux_ignores_user_encoding_options
           (args_with_crf QAuto "transcode" "16") "mp4" movie_mkv movie_mp4
           (Some "h264") (Some "aac") eq_refl eq_refl).
Defined.

Lemma auto_transcodes_files_without_video_witness :
  effective_mode
    (main_policy (args_of QAuto "auto") "mp4" None (Some "aac"))
  = "transcode"
  /\ vcodec_use (main_policy (args_of QAuto "auto") "mp4" None (Some "aac"))
     = Some "libx264".
Proof.
  apply (auto_transcodes_files_without_video (args_of QAuto "auto") "mp4"
           None (Some "aac") eq_refl eq_refl).
  vm_compute. intuition discriminate.
Defined.

